(** * fastapi-users-db-mongodb: the MongoDB user-database adapter

    A shallow embedding of [fastapi_users_db_mongodb/__init__.py].

    The adapter is a thin class over two collaborators that live outside the
    repository: the document model of the user ([user.dict()] and the
    constructor [user_db_model] applied to the fields of a document, from
    pydantic) and the collection handle of the driver ([find_one], [insert_one], [replace_one], [delete_one],
    [create_index], from motor/pymongo).  The first is an interface
    ([UserModel]); the second is a reference model of a collection following
    the MongoDB manual, kept in [Module Motor].  The methods of the class are
    then written in a small state-and-exception monad. *)

From Stdlib Require Import List String Ascii Bool Arith NArith ZArith Lia.
Import ListNotations.
Local Open Scope string_scope.
Local Open Scope list_scope.
Set Warnings "-register-all".

(* ===================================================================== *)
(** ** BSON values and documents *)
(* ===================================================================== *)

Module Bson.

Definition uuid := N.
Bind Scope N_scope with uuid.

(** The values a stored document is made of.  A document is an ordered list
    of named fields, as a Python dict is. *)
Inductive value : Type :=
| VNull
| VBool (b : bool)
| VInt (z : Z)
| VStr (s : string)
| VUuid (u : uuid)
| VObjectId (n : N)
| VArray (vs : list value)
| VDoc (fs : list (string * value)).

Definition document := list (string * value).

Fixpoint get_field (k : string) (d : document) : option value :=
  match d with
  | [] => None
  | (k', v) :: d' => if String.eqb k k' then Some v else get_field k d'
  end.

Definition has_field (k : string) (d : document) : bool :=
  match get_field k d with Some _ => true | None => false end.

Definition is_null (v : value) : bool :=
  match v with VNull => true | _ => false end.

(** Equality of values; strings are compared with [streq], which is plain
    equality unless the operation carries a collation.  Field names are
    always compared exactly. *)
Fixpoint value_eqb (streq : string -> string -> bool) (a b : value) : bool :=
  match a, b with
  | VNull, VNull => true
  | VBool x, VBool y => Bool.eqb x y
  | VInt x, VInt y => Z.eqb x y
  | VStr x, VStr y => streq x y
  | VUuid x, VUuid y => N.eqb x y
  | VObjectId x, VObjectId y => N.eqb x y
  | VArray xs, VArray ys =>
      (fix go (xs ys : list value) : bool :=
         match xs, ys with
         | [], [] => true
         | x :: xs', y :: ys' => value_eqb streq x y && go xs' ys'
         | _, _ => false
         end) xs ys
  | VDoc fs, VDoc gs =>
      (fix go (fs gs : list (string * value)) : bool :=
         match fs, gs with
         | [], [] => true
         | (k, x) :: fs', (k', y) :: gs' =>
             String.eqb k k' && value_eqb streq x y && go fs' gs'
         | _, _ => false
         end) fs gs
  | _, _ => false
  end.

(** A dotted field path, ["oauth_accounts.account_id"], as its components. *)
Fixpoint split_path_aux (acc : string) (s : string) : list string :=
  match s with
  | EmptyString => [acc]
  | String c s' =>
      if Ascii.eqb c "."%char then acc :: split_path_aux "" s'
      else split_path_aux (acc ++ String c "")%string s'
  end.

Definition split_path (s : string) : list string := split_path_aux "" s.

(** The value at the end of a path satisfies an equality condition when it
    equals the operand, or when it is an array one of whose elements does. *)
Definition leaf_matches (streq : string -> string -> bool) (q v : value) : bool :=
  value_eqb streq v q
  || match v with
     | VArray vs => existsb (fun x => value_eqb streq x q) vs
     | _ => false
     end.

(** Equality condition [{path: q}] on a document, as the MongoDB manual
    describes it under "Query an Array of Embedded Documents": a path that
    crosses an array of embedded documents is satisfied as soon as one
    element of the array satisfies the rest of the path.  A missing path
    only matches a null operand. *)
Fixpoint match_path (streq : string -> string -> bool) (q : value)
  (path : list string) (d : document) {struct path} : bool :=
  match path with
  | [] => false
  | k :: rest =>
      match rest with
      | [] =>
          match get_field k d with
          | Some v => leaf_matches streq q v
          | None => is_null q
          end
      | _ :: _ =>
          match get_field k d with
          | Some (VDoc d') => match_path streq q rest d'
          | Some (VArray vs) =>
              existsb (fun x => match x with
                                | VDoc d' => match_path streq q rest d'
                                | _ => false
                                end) vs
          | _ => is_null q
          end
      end
  end.

(** A query filter is a dict from field paths to operands; every condition
    has to hold of the document, each one on its own: without [$elemMatch],
    two conditions on the same array may be met by different elements
    ("a combination of elements satisfies the criteria"). *)
Definition query := list (string * value).

Definition matches (streq : string -> string -> bool) (q : query) (d : document) : bool :=
  forallb (fun c => match_path streq (snd c) (split_path (fst c)) d) q.

End Bson.
Export Bson.

(* ===================================================================== *)
(** ** Collations *)
(* ===================================================================== *)

Module Collations.

(** [pymongo.collation.Collation(locale, strength=...)]: the two options the
    adapter sets.  [strength = None] is the server default, tertiary. *)
Record Collation : Type := mkCollation {
  locale : string;
  strength : option nat
}.

(** Characters are code points below 256 (Latin-1).  Comparison levels, as
    the MongoDB manual gives them: strength 1 compares base characters only,
    strength 2 base characters and diacritics, strength 3 also case.
    [sort_key] is a stand-in for the comparison of the storage engine: it
    folds the case of letters and strips the accents of Latin-1 letters,
    does not read the locale, and serves to run the operations on examples.
    What has to hold of the engine itself is stated for an arbitrary
    comparison ([get_by_email_under]). *)
Definition lower (c : ascii) : ascii :=
  let n := nat_of_ascii c in
  if ((65 <=? n)%nat && (n <=? 90)%nat)
     || ((192 <=? n)%nat && (n <=? 222)%nat && negb (n =? 215)%nat)
  then ascii_of_nat (n + 32) else c.

Definition unaccent (c : ascii) : ascii :=
  let n := nat_of_ascii c in
  if (224 <=? n)%nat && (n <=? 229)%nat then "a"%char
  else if (n =? 231)%nat then "c"%char
  else if (232 <=? n)%nat && (n <=? 235)%nat then "e"%char
  else if (236 <=? n)%nat && (n <=? 239)%nat then "i"%char
  else if (n =? 241)%nat then "n"%char
  else if ((242 <=? n)%nat && (n <=? 246)%nat) || (n =? 248)%nat then "o"%char
  else if (249 <=? n)%nat && (n <=? 252)%nat then "u"%char
  else if (n =? 253)%nat || (n =? 255)%nat then "y"%char
  else c.

Fixpoint map_string (f : ascii -> ascii) (s : string) : string :=
  match s with
  | EmptyString => EmptyString
  | String c s' => String (f c) (map_string f s')
  end.

Definition sort_key (c : Collation) (s : string) : string :=
  match strength c with
  | Some 1 => map_string (fun x => unaccent (lower x)) s
  | Some 2 => map_string lower s
  | _ => s
  end.

Definition collation_eqb (c : Collation) (a b : string) : bool :=
  String.eqb (sort_key c a) (sort_key c b).

(** String comparison of an operation: plain unless a collation is given. *)
Definition streq_of (c : option Collation) : string -> string -> bool :=
  match c with
  | Some c => collation_eqb c
  | None => String.eqb
  end.

End Collations.
Export Collations.

(* ===================================================================== *)
(** ** The collection handle of the driver *)
(* ===================================================================== *)

Module Motor.

(** Exceptions an operation of the driver or of the model can raise. *)
Inductive error : Type :=
| DuplicateKeyError (key : string)
| OperationFailure
| WriteError
| ValidationError.

Inductive result (A : Type) : Type :=
| Ok (a : A)
| Raise (e : error).
Arguments Ok {A} a.
Arguments Raise {A} e.

Record index : Type := mkIndex {
  ix_key : string;
  ix_unique : bool;
  ix_collation : option Collation
}.

(** The calls a collection receives, in the order they are issued. *)
Inductive call : Type :=
| CreateIndex (key : string) (unique : bool) (collation : option Collation)
| FindOne (q : query) (collation : option Collation)
| InsertOne (d : document)
| ReplaceOne (q : query) (d : document)
| DeleteOne (q : query).

(** A collection: its documents in natural order, its secondary indexes,
    the next ObjectId the client generates, and the calls received. *)
Record Collection : Type := mkCollection {
  docs : list document;
  indexes : list index;
  next_oid : N;
  calls : list call
}.

Definition index_eqb (a b : index) : bool :=
  String.eqb (ix_key a) (ix_key b)
  && Bool.eqb (ix_unique a) (ix_unique b)
  && match ix_collation a, ix_collation b with
     | None, None => true
     | Some x, Some y =>
         String.eqb (locale x) (locale y)
         && match strength x, strength y with
            | None, None => true
            | Some n, Some m => Nat.eqb n m
            | _, _ => false
            end
     | _, _ => false
     end.

(** The key of a document in an index; a missing field is indexed as null. *)
Definition index_key (ix : index) (d : document) : value :=
  match get_field (ix_key ix) d with
  | Some v => v
  | None => VNull
  end.

Definition key_eqb (ix : index) (a b : value) : bool :=
  value_eqb (streq_of (ix_collation ix)) a b.

(** The index every collection has: unique, on [_id]. *)
Definition ix__id : index := mkIndex "_id" true None.

Definition unique_indexes (c : Collection) : list index :=
  ix__id :: filter ix_unique (indexes c).

(** [d] has the key of one of [ds] in [ix]. *)
Definition collides (ix : index) (d : document) (ds : list document) : bool :=
  existsb (fun d' => key_eqb ix (index_key ix d') (index_key ix d)) ds.

Fixpoint has_duplicates (ix : index) (ds : list document) : bool :=
  match ds with
  | [] => false
  | d :: ds' => collides ix d ds' || has_duplicates ix ds'
  end.

(** The first unique index in which [d] collides with one of [ds]. *)
Definition violated (ixs : list index) (d : document) (ds : list document)
  : option index :=
  find (fun ix => collides ix d ds) ixs.

(** [ix'] is an index on [key]; the default name of an index is made of
    its key, so two indexes on the same key go by the same name. *)
Definition same_key (key : string) (ix' : index) : bool :=
  String.eqb (ix_key ix') key.

Definition log (k : call) (c : Collection) : Collection :=
  mkCollection (docs c) (indexes c) (next_oid c) (calls c ++ [k]).

(** [create_index(key, unique=..., collation=...)]: nothing to do when the
    index exists; an index on the same key with other options is a
    conflict; building a unique index over documents that already share a
    key fails; the name of the index is returned. *)
Definition create_index (key : string) (unique : bool)
  (collation : option Collation) (c : Collection) : result string * Collection :=
  let c := log (CreateIndex key unique collation) c in
  let ix := mkIndex key unique collation in
  if existsb (index_eqb ix) (indexes c) then (Ok (key ++ "_1")%string, c)
  else if existsb (same_key key) (indexes c) then (Raise OperationFailure, c)
  else if unique && has_duplicates ix (docs c) then (Raise (DuplicateKeyError key), c)
  else (Ok (key ++ "_1")%string,
        mkCollection (docs c) (indexes c ++ [ix]) (next_oid c) (calls c)).

(** [find_one(filter, collation=...)]: the first document, in natural
    order, that satisfies the filter. *)
Definition find_one (q : query) (collation : option Collation) (c : Collection)
  : result (option document) * Collection :=
  let c := log (FindOne q collation) c in
  (Ok (find (matches (streq_of collation) q) (docs c)), c).

(** [insert_one(document)]: a document without [_id] gets a fresh ObjectId
    from the client; the insert is refused when the document collides with
    a stored one in a unique index.  The [_id] is returned. *)
Definition insert_one (d : document) (c : Collection) : result value * Collection :=
  let c := log (InsertOne d) c in
  let '(d', next) :=
    if has_field "_id" d then (d, next_oid c)
    else (("_id", VObjectId (next_oid c)) :: d, N.succ (next_oid c)) in
  match violated (unique_indexes c) d' (docs c) with
  | Some ix =>
      (Raise (DuplicateKeyError (ix_key ix)),
       mkCollection (docs c) (indexes c) next (calls c))
  | None =>
      (Ok (index_key ix__id d'),
       mkCollection (docs c ++ [d']) (indexes c) next (calls c))
  end.

(** The documents before the first match of [p], the match, and the rest. *)
Fixpoint split_first (p : document -> bool) (ds : list document)
  : option (list document * document * list document) :=
  match ds with
  | [] => None
  | d :: ds' =>
      if p d then Some ([], d, ds')
      else match split_first p ds' with
           | Some (before, m, after) => Some (d :: before, m, after)
           | None => None
           end
  end.

(** [replace_one(filter, replacement)], without upsert: the first document
    that satisfies the filter is replaced as a whole and keeps its [_id]; a
    replacement carrying another [_id] is refused, and so is one that
    collides with another document in a unique index.  Without a match
    nothing happens.  The number of matched documents is returned. *)
Definition replace_one (q : query) (d : document) (c : Collection)
  : result nat * Collection :=
  let c := log (ReplaceOne q d) c in
  match split_first (matches String.eqb q) (docs c) with
  | None => (Ok 0, c)
  | Some (before, old, after) =>
      let oid := index_key ix__id old in
      match get_field "_id" d with
      | Some v =>
          if value_eqb String.eqb v oid then
            match violated (unique_indexes c) d (before ++ after) with
            | Some ix => (Raise (DuplicateKeyError (ix_key ix)), c)
            | None =>
                (Ok 1, mkCollection (before ++ d :: after) (indexes c)
                         (next_oid c) (calls c))
            end
          else (Raise WriteError, c)
      | None =>
          let d' := ("_id", oid) :: d in
          match violated (unique_indexes c) d' (before ++ after) with
          | Some ix => (Raise (DuplicateKeyError (ix_key ix)), c)
          | None =>
              (Ok 1, mkCollection (before ++ d' :: after) (indexes c)
                       (next_oid c) (calls c))
          end
      end
  end.

(** [delete_one(filter)]: the first document that satisfies the filter is
    removed; the number of removed documents is returned. *)
Definition delete_one (q : query) (c : Collection) : result nat * Collection :=
  let c := log (DeleteOne q) c in
  match split_first (matches String.eqb q) (docs c) with
  | None => (Ok 0, c)
  | Some (before, _, after) =>
      (Ok 1, mkCollection (before ++ after) (indexes c) (next_oid c) (calls c))
  end.

End Motor.
Export Motor.

(* ===================================================================== *)
(** ** The adapter: [MongoDBUserDatabase] *)
(* ===================================================================== *)

(** The adapter is generic in the model of the user, [UD]: it needs the
    serialisation [user.dict()], the constructor [user_db_model] applied to
    the fields of a document ([None] when validation fails), and the
    attribute [user.id]. *)
Class UserModel (UD : Type) : Type := {
  user_db_model : document -> option UD;
  dict : UD -> document;
  user_id : UD -> uuid
}.

(** The attributes of an instance.  The collection handle stands for the
    collection it points to. *)
Record MongoDBUserDatabase : Type := mkStore {
  collection : Collection;
  initialized : bool;
  email_collation : Collation
}.

(** Methods run on [self] and either return or raise; what they did to
    [self] before raising stays done. *)
Definition M (A : Type) : Type :=
  MongoDBUserDatabase -> result A * MongoDBUserDatabase.

Definition ret {A : Type} (a : A) : M A := fun self => (Ok a, self).

Definition raise {A : Type} (e : error) : M A := fun self => (Raise e, self).

Definition bind {A B : Type} (m : M A) (k : A -> M B) : M B :=
  fun self =>
    match m self with
    | (Ok a, self') => k a self'
    | (Raise e, self') => (Raise e, self')
    end.

Notation "x <- m ;; k" := (bind m (fun x => k))
  (at level 61, m at next level, right associativity).
Notation "m ;; k" := (bind m (fun _ => k))
  (at level 61, right associativity).

(** [self.attr] *)
Definition read {A : Type} (attr : MongoDBUserDatabase -> A) : M A :=
  fun self => (Ok (attr self), self).

(** [self.initialized = b] *)
Definition set_initialized (b : bool) : M unit :=
  fun self => (Ok tt, mkStore (collection self) b (email_collation self)).

(** [await self.collection.op(...)] *)
Definition await {A : Type} (op : Collection -> result A * Collection) : M A :=
  fun self =>
    let (r, c) := op (collection self) in
    (r, mkStore c (initialized self) (email_collation self)).

(** [__init__(user_db_model, collection, email_collation=None)] *)
Definition __init__ (collection : Collection) (email_collation : option Collation)
  : MongoDBUserDatabase :=
  {| collection := collection;
     initialized := false;
     email_collation :=
       match email_collation with
       | Some c => c
       | None => mkCollation "en" (Some 2)
       end |}.

Definition _initialize : M unit :=
  flag <- read initialized ;;
  if negb flag then
    await (create_index "id" true None) ;;
    await (create_index "email" true None) ;;
    set_initialized true
  else ret tt.

Section Methods.

Context {UD : Type} `{UserModel UD}.

(** [self.user_db_model( ** user) if user else None]: an empty dict is as
    false as [None]. *)
Definition model_or_none (user : option document) : M (option UD) :=
  match user with
  | Some (f :: fs) =>
      match user_db_model (f :: fs) with
      | Some u => ret (Some u)
      | None => raise ValidationError
      end
  | _ => ret None
  end.

Definition get (id : uuid) : M (option UD) :=
  _initialize ;;
  user <- await (find_one [("id", VUuid id)] None) ;;
  model_or_none user.

Definition get_by_email (email : string) : M (option UD) :=
  _initialize ;;
  c <- read email_collation ;;
  user <- await (find_one [("email", VStr email)] (Some c)) ;;
  model_or_none user.

Definition get_by_oauth_account (oauth account_id : string) : M (option UD) :=
  _initialize ;;
  user <- await (find_one [("oauth_accounts.oauth_name", VStr oauth);
                           ("oauth_accounts.account_id", VStr account_id)] None) ;;
  model_or_none user.

Definition create (user : UD) : M UD :=
  _initialize ;;
  await (insert_one (dict user)) ;;
  ret user.

Definition update (user : UD) : M UD :=
  _initialize ;;
  await (replace_one [("id", VUuid (user_id user))] (dict user)) ;;
  ret user.

Definition delete (user : UD) : M unit :=
  _initialize ;;
  await (delete_one [("id", VUuid (user_id user))]) ;;
  ret tt.

(** The public operations, to speak of any of them and of sequences. *)
Inductive operation : Type :=
| OpGet (id : uuid)
| OpGetByEmail (email : string)
| OpGetByOAuthAccount (oauth account_id : string)
| OpCreate (user : UD)
| OpUpdate (user : UD)
| OpDelete (user : UD).

Inductive outcome : Type :=
| Looked (u : option UD)
| Wrote (u : UD)
| Deleted.

Definition perform (o : operation) : M outcome :=
  match o with
  | OpGet id => u <- get id ;; ret (Looked u)
  | OpGetByEmail email => u <- get_by_email email ;; ret (Looked u)
  | OpGetByOAuthAccount oauth account_id =>
      u <- get_by_oauth_account oauth account_id ;; ret (Looked u)
  | OpCreate user => u <- create user ;; ret (Wrote u)
  | OpUpdate user => u <- update user ;; ret (Wrote u)
  | OpDelete user => delete user ;; ret Deleted
  end.

(** The store after a sequence of operations, whatever each returned. *)
Definition perform_all (ops : list operation) (self : MongoDBUserDatabase)
  : MongoDBUserDatabase :=
  fold_left (fun s o => snd (perform o s)) ops self.

End Methods.

(* ===================================================================== *)
(** ** An application user model *)
(* ===================================================================== *)

(** A user model in the shape of fastapi-users' [BaseUserDB] with OAuth
    accounts and one field of the application's own, [first_name]; fields
    of a document the model does not declare, as [_id], are ignored. *)
Module AppUser.

Record OAuthAccount : Type := mkOAuthAccount {
  oauth_name : string;
  access_token : string;
  account_id : string;
  account_email : string
}.

Record User : Type := mkUser {
  id : uuid;
  email : string;
  hashed_password : string;
  is_active : bool;
  is_superuser : bool;
  first_name : string;
  oauth_accounts : list OAuthAccount
}.

Definition oauth_dict (a : OAuthAccount) : value :=
  VDoc [("oauth_name", VStr (oauth_name a));
        ("access_token", VStr (access_token a));
        ("account_id", VStr (account_id a));
        ("account_email", VStr (account_email a))].

Definition user_dict (u : User) : document :=
  [("id", VUuid (id u));
   ("email", VStr (email u));
   ("hashed_password", VStr (hashed_password u));
   ("is_active", VBool (is_active u));
   ("is_superuser", VBool (is_superuser u));
   ("first_name", VStr (first_name u));
   ("oauth_accounts", VArray (map oauth_dict (oauth_accounts u)))].

Definition oauth_of (v : value) : option OAuthAccount :=
  match v with
  | VDoc d =>
      match get_field "oauth_name" d, get_field "access_token" d,
            get_field "account_id" d, get_field "account_email" d with
      | Some (VStr n), Some (VStr t), Some (VStr a), Some (VStr e) =>
          Some (mkOAuthAccount n t a e)
      | _, _, _, _ => None
      end
  | _ => None
  end.

Fixpoint oauths_of (vs : list value) : option (list OAuthAccount) :=
  match vs with
  | [] => Some []
  | v :: vs' =>
      match oauth_of v, oauths_of vs' with
      | Some a, Some l => Some (a :: l)
      | _, _ => None
      end
  end.

Definition user_of (d : document) : option User :=
  match get_field "id" d, get_field "email" d, get_field "hashed_password" d with
  | Some (VUuid i), Some (VStr e), Some (VStr h) =>
      match get_field "is_active" d, get_field "is_superuser" d,
            get_field "first_name" d, get_field "oauth_accounts" d with
      | Some (VBool a), Some (VBool s), Some (VStr f), Some (VArray vs) =>
          match oauths_of vs with
          | Some l => Some (mkUser i e h a s f l)
          | None => None
          end
      | _, _, _, _ => None
      end
  | _, _, _ => None
  end.

#[global] Instance user_model : UserModel User := {
  user_db_model := user_of;
  dict := user_dict;
  user_id := id
}.

End AppUser.

(* ===================================================================== *)
(** ** Stored documents and well-formed collections *)
(* ===================================================================== *)

Definition ix_id : index := mkIndex "id" true None.
Definition ix_email : index := mkIndex "email" true None.

Definition doc_oid (d : document) : option N :=
  match get_field "_id" d with Some (VObjectId n) => Some n | _ => None end.

Definition doc_id (d : document) : option uuid :=
  match get_field "id" d with Some (VUuid i) => Some i | _ => None end.

Definition doc_email (d : document) : option string :=
  match get_field "email" d with Some (VStr e) => Some e | _ => None end.

(** The elements of [oauth_accounts] of a document. *)
Definition doc_accounts (d : document) : list value :=
  match get_field "oauth_accounts" d with Some (VArray vs) => vs | _ => [] end.

(** The array element [x] is an account of provider [p] with id [a]. *)
Definition is_account (p a : string) (x : value) : bool :=
  match x with
  | VDoc e =>
      match get_field "oauth_name" e, get_field "account_id" e with
      | Some (VStr p'), Some (VStr a') => String.eqb p' p && String.eqb a' a
      | _, _ => false
      end
  | _ => false
  end.

(** The document holds the pair [(p, a)] in one element of [oauth_accounts]. *)
Definition has_account (p a : string) (d : document) : bool :=
  existsb (is_account p a) (doc_accounts d).

Definition has_id (i : uuid) (ds : list document) : bool :=
  existsb (fun d => match doc_id d with Some j => N.eqb j i | None => false end) ds.

Definition has_email (e : string) (ds : list document) : bool :=
  existsb (fun d => match doc_email d with Some e' => String.eqb e' e | None => false end) ds.

(** A stored document of a user: an ObjectId the client has generated, a
    UUID [id] and a string [email]. *)
Definition user_shaped (next : N) (d : document) : bool :=
  match doc_oid d, doc_id d, doc_email d with
  | Some n, Some _, Some _ => N.ltb n next
  | _, _, _ => false
  end.

(** A collection of users: every document is one of a user, no two share
    [_id], [id] or [email], and the only secondary indexes are the two the
    adapter creates. *)
Definition wf_docs (next : N) (ds : list document) : bool :=
  forallb (user_shaped next) ds
  && negb (has_duplicates ix__id ds)
  && negb (has_duplicates ix_id ds)
  && negb (has_duplicates ix_email ds).

Definition wf_collection (c : Collection) : bool :=
  wf_docs (next_oid c) (docs c)
  && forallb (fun ix => index_eqb ix ix_id || index_eqb ix ix_email) (indexes c).

(** Both indexes of the adapter are in place. *)
Definition enforced (c : Collection) : bool :=
  existsb (index_eqb ix_id) (indexes c) && existsb (index_eqb ix_email) (indexes c).

(** A store over a collection of users; once it is initialized the indexes
    are in place. *)
Definition wf_store (self : MongoDBUserDatabase) : bool :=
  wf_collection (collection self)
  && (negb (initialized self) || enforced (collection self)).

Section Validity.

Context {UD : Type} `{UserModel UD}.

(** A valid user: its serialisation carries its id and an email, leaves
    [_id] to the collection, and is read back as the same user whatever
    [_id] the collection has put in front. *)
Definition valid_user (u : UD) : Prop :=
  get_field "_id" (dict u) = None
  /\ doc_id (dict u) = Some (user_id u)
  /\ (exists e, doc_email (dict u) = Some e)
  /\ forall oid, user_db_model (("_id", oid) :: dict u) = Some u.

End Validity.

(* ===================================================================== *)
(** ** Derived notions: what the operations leave behind *)
(* ===================================================================== *)

(** The indexes once [ix] has been asked for. *)
Definition with_index (ix : index) (ixs : list index) : list index :=
  if existsb (index_eqb ix) ixs then ixs else ixs ++ [ix].

(** The store once lazy initialization has gone through. *)
Definition ready (self : MongoDBUserDatabase) : MongoDBUserDatabase :=
  if initialized self then self
  else
    let c := collection self in
    mkStore
      (mkCollection (docs c)
         (with_index ix_email (with_index ix_id (indexes c)))
         (next_oid c)
         (calls c ++ [CreateIndex "id" true None; CreateIndex "email" true None]))
      true (email_collation self).

(** The store an operation of the collection leaves behind. *)
Definition over (c : Collection) (self : MongoDBUserDatabase) : MongoDBUserDatabase :=
  mkStore c (initialized self) (email_collation self).

(** Another document than the one of [i] has the email [e]. *)
Definition email_of_other (i : uuid) (e : string) (ds : list document) : bool :=
  existsb (fun d => match doc_id d, doc_email d with
                    | Some j, Some e' => negb (N.eqb j i) && String.eqb e' e
                    | _, _ => false
                    end) ds.

(** [find_one] with the comparison of the storage engine under a
    collation left open: [collate col a b] says whether the engine takes
    the stored string [a] and the operand [b] for equal under [col].
    [find_one] is the instance at [collation_eqb]. *)
Definition find_one_under (collate : Collation -> string -> string -> bool)
  (q : query) (collation : option Collation) (c : Collection)
  : result (option document) * Collection :=
  let c := log (FindOne q collation) c in
  (Ok (find (matches (match collation with
                      | Some col => collate col
                      | None => String.eqb
                      end) q) (docs c)), c).

(** A document of [ds] has an email that [streq] takes for equal to [q]. *)
Definition has_email_by (streq : string -> string -> bool) (q : string)
  (ds : list document) : bool :=
  existsb (fun d => match doc_email d with
                    | Some e' => streq e' q
                    | None => false
                    end) ds.

Definition is_create_index (k : call) : bool :=
  match k with CreateIndex _ _ _ => true | _ => false end.

(** The index-creation calls a collection has received. *)
Definition index_calls (c : Collection) : list call :=
  filter is_create_index (calls c).

(** A computation only adds calls to those the collection has received. *)
Definition grows {A : Type} (m : M A) : Prop :=
  forall self, exists l,
    calls (collection (snd (m self))) = calls (collection self) ++ l.

(** The first call a computation issues on [self] is [k]. *)
Definition starts_with {A : Type} (k : call) (m : M A)
  (self : MongoDBUserDatabase) : Prop :=
  exists l, calls (collection (snd (m self))) = calls (collection self) ++ k :: l.

(** A computation leaves the observation [f] of the store as it was,
    whether it returns or raises. *)
Definition stable {A X : Type} (f : MongoDBUserDatabase -> X) (m : M A) : Prop :=
  forall self, f (snd (m self)) = f self.

(** The document [insert_one] stores for [d]. *)
Definition stored (d : document) (c : Collection) : document :=
  if has_field "_id" d then d else ("_id", VObjectId (next_oid c)) :: d.

Section Derived.

Context {UD : Type} `{UserModel UD}.

(** The store after [create] has inserted the user. *)
Definition created (u : UD) (self : MongoDBUserDatabase) : MongoDBUserDatabase :=
  let c := collection (ready self) in
  over (mkCollection (docs c ++ [("_id", VObjectId (next_oid c)) :: dict u])
          (indexes c) (N.succ (next_oid c)) (calls c ++ [InsertOne (dict u)]))
    (ready self).

(** The store after [create] has been refused. *)
Definition refused (u : UD) (self : MongoDBUserDatabase) : MongoDBUserDatabase :=
  let c := collection (ready self) in
  over (mkCollection (docs c) (indexes c) (N.succ (next_oid c))
          (calls c ++ [InsertOne (dict u)]))
    (ready self).

(** [get_by_email] over an engine that compares with [collate]. *)
Definition get_by_email_under (collate : Collation -> string -> string -> bool)
  (email : string) : M (option UD) :=
  _initialize ;;
  c <- read email_collation ;;
  user <- await (find_one_under collate [("email", VStr email)] (Some c)) ;;
  model_or_none user.

(** The users an operation writes are valid ones. *)
Definition writes_valid (o : operation) : Prop :=
  match o with
  | OpCreate user | OpUpdate user => valid_user user
  | _ => True
  end.

(** The one call an operation issues after lazy initialization. *)
Definition call_of (self : MongoDBUserDatabase) (o : operation) : call :=
  match o with
  | OpGet id => FindOne [("id", VUuid id)] None
  | OpGetByEmail email =>
      FindOne [("email", VStr email)] (Some (email_collation self))
  | OpGetByOAuthAccount oauth account_id =>
      FindOne [("oauth_accounts.oauth_name", VStr oauth);
               ("oauth_accounts.account_id", VStr account_id)] None
  | OpCreate user => InsertOne (dict user)
  | OpUpdate user => ReplaceOne [("id", VUuid (user_id user))] (dict user)
  | OpDelete user => DeleteOne [("id", VUuid (user_id user))]
  end.

End Derived.

(* ===================================================================== *)
(** ** Stores to run the operations on *)
(* ===================================================================== *)

Module Examples.

Import AppUser.

Definition empty : Collection := mkCollection [] [] 0 [].

Definition google_1 : OAuthAccount :=
  mkOAuthAccount "google" "token-g" "1" "alice@gmail.com".
Definition github_2 : OAuthAccount :=
  mkOAuthAccount "github" "token-h" "2" "alice@github.com".

Definition alice : User :=
  mkUser 1 "A@B.com" "hash-a" true false "Alice" [google_1; github_2].
Definition bob : User :=
  mkUser 2 "a@b.com" "hash-b" true false "Bob" [].
Definition carol : User :=
  mkUser 3 "carol@b.com" "hash-c" true false "Carol" [google_1].

(** Alice after she has taken Bob's address and dropped her accounts. *)
Definition alice_moved : User :=
  mkUser 1 "a@b.com" "hash-a" true false "Alice" [].

Definition fresh : MongoDBUserDatabase := __init__ empty None.

(** The store once Alice alone, or Bob and then Alice, has been created. *)
Definition with_alice : MongoDBUserDatabase := snd (create alice fresh).
Definition with_bob : MongoDBUserDatabase := snd (create bob fresh).
Definition with_bob_alice : MongoDBUserDatabase := snd (create alice with_bob).

Definition with_carol : MongoDBUserDatabase := snd (create carol fresh).

(** A collection that was filled before any index existed: two documents
    share an email. *)
Definition twice_bob : Collection :=
  mkCollection
    [("_id", VObjectId 0) :: user_dict bob;
     ("_id", VObjectId 1) :: user_dict (mkUser 4 "a@b.com" "hash-d" true false "Bo" [])]
    [] 2 [].

(** A collection with a document the application model does not accept:
    it has no [hashed_password]. *)
Definition with_stranger : Collection :=
  mkCollection
    [[("_id", VObjectId 0); ("id", VUuid 9); ("email", VStr "x@y.com")]]
    [] 1 [].

End Examples.

(* ===================================================================== *)
(** ** Keys, filters and documents of users *)
(* ===================================================================== *)

Lemma doc_id_field (d : document) (i : uuid) :
  doc_id d = Some i -> get_field "id" d = Some (VUuid i).
Proof.
  unfold doc_id. destruct (get_field "id" d) as [[]|]; congruence.
Qed.

Lemma doc_email_field (d : document) (e : string) :
  doc_email d = Some e -> get_field "email" d = Some (VStr e).
Proof.
  unfold doc_email. destruct (get_field "email" d) as [[]|]; congruence.
Qed.

Lemma doc_oid_field (d : document) (n : N) :
  doc_oid d = Some n -> get_field "_id" d = Some (VObjectId n).
Proof.
  unfold doc_oid. destruct (get_field "_id" d) as [[]|]; congruence.
Qed.

Lemma key_id_eqb (d : document) (i : uuid) :
  key_eqb ix_id (index_key ix_id d) (VUuid i)
  = match doc_id d with Some j => N.eqb j i | None => false end.
Proof.
  unfold key_eqb, index_key, doc_id. simpl.
  destruct (get_field "id" d) as [[]|]; reflexivity.
Qed.

Lemma key_email_eqb (d : document) (e : string) :
  key_eqb ix_email (index_key ix_email d) (VStr e)
  = match doc_email d with Some e' => String.eqb e' e | None => false end.
Proof.
  unfold key_eqb, index_key, doc_email. simpl.
  destruct (get_field "email" d) as [[]|]; reflexivity.
Qed.

Lemma key_oid_eqb (d : document) (n : N) :
  key_eqb ix__id (index_key ix__id d) (VObjectId n)
  = match doc_oid d with Some m => N.eqb m n | None => false end.
Proof.
  unfold key_eqb, index_key, doc_oid. simpl.
  destruct (get_field "_id" d) as [[]|]; reflexivity.
Qed.

Lemma collides_id (d : document) (i : uuid) (ds : list document) :
  doc_id d = Some i -> collides ix_id d ds = has_id i ds.
Proof.
  intros Hd. unfold collides, has_id, index_key at 2. simpl ix_key.
  rewrite (doc_id_field _ _ Hd).
  induction ds as [|d' ds IH]; simpl; [reflexivity|].
  now rewrite key_id_eqb, IH.
Qed.

Lemma collides_email (d : document) (e : string) (ds : list document) :
  doc_email d = Some e -> collides ix_email d ds = has_email e ds.
Proof.
  intros Hd. unfold collides, has_email, index_key at 2. simpl ix_key.
  rewrite (doc_email_field _ _ Hd).
  induction ds as [|d' ds IH]; simpl; [reflexivity|].
  now rewrite key_email_eqb, IH.
Qed.

Lemma user_shaped_inv (next : N) (d : document) :
  user_shaped next d = true ->
  exists n i e, doc_oid d = Some n /\ (n < next)%N
                /\ doc_id d = Some i /\ doc_email d = Some e.
Proof.
  unfold user_shaped.
  destruct (doc_oid d) as [n|]; [|discriminate].
  destruct (doc_id d) as [i|]; [|discriminate].
  destruct (doc_email d) as [e|]; [|discriminate].
  intros Hlt. apply N.ltb_lt in Hlt. now exists n, i, e.
Qed.

Lemma collides_oid (d : document) (n next : N) (ds : list document) :
  forallb (user_shaped next) ds = true ->
  doc_oid d = Some n -> (next <= n)%N ->
  collides ix__id d ds = false.
Proof.
  intros Hs Hd Hn. unfold collides, index_key at 2. simpl ix_key.
  rewrite (doc_oid_field _ _ Hd).
  induction ds as [|d' ds IH]; simpl in *; [reflexivity|].
  apply andb_true_iff in Hs as [Hs1 Hs2].
  rewrite key_oid_eqb, (IH Hs2), orb_false_r.
  destruct (user_shaped_inv _ _ Hs1) as (m & _ & _ & -> & Hm & _).
  apply N.eqb_neq. lia.
Qed.

Lemma matches_id (d : document) (i j : uuid) :
  doc_id d = Some j ->
  matches String.eqb [("id", VUuid i)] d = N.eqb j i.
Proof.
  intros Hd. unfold matches. cbn.
  rewrite (doc_id_field _ _ Hd). unfold leaf_matches. cbn.
  now rewrite orb_false_r, andb_true_r.
Qed.

Lemma matches_email (streq : string -> string -> bool) (d : document) (e e' : string) :
  doc_email d = Some e' ->
  matches streq [("email", VStr e)] d = streq e' e.
Proof.
  intros Hd. unfold matches. cbn.
  rewrite (doc_email_field _ _ Hd). unfold leaf_matches. cbn.
  now rewrite orb_false_r, andb_true_r.
Qed.

(** In a collection of users, the filter [{"id": i}] finds a document
    exactly where [has_id] sees one. *)
Lemma has_id_matches (next : N) (i : uuid) (ds : list document) :
  forallb (user_shaped next) ds = true ->
  existsb (matches String.eqb [("id", VUuid i)]) ds = has_id i ds.
Proof.
  induction ds as [|d ds IH]; cbn [forallb existsb has_id]; intros Hs;
    [reflexivity|].
  apply andb_true_iff in Hs as [Hs1 Hs2].
  destruct (user_shaped_inv _ _ Hs1) as (_ & j & _ & _ & _ & Hj & _).
  rewrite (matches_id _ i _ Hj), Hj. f_equal. exact (IH Hs2).
Qed.

Lemma find_skip {A : Type} (p : A -> bool) (l r : list A) :
  existsb p l = false -> find p (l ++ r) = find p r.
Proof.
  induction l as [|x l IH]; simpl; intros He; [reflexivity|].
  apply orb_false_iff in He as [-> He]. now apply IH.
Qed.

Lemma find_none_existsb {A : Type} (p : A -> bool) (l : list A) :
  existsb p l = false -> find p l = None.
Proof.
  induction l as [|x l IH]; simpl; intros He; [reflexivity|].
  apply orb_false_iff in He as [-> He]. now apply IH.
Qed.

Lemma split_first_none (p : document -> bool) (ds : list document) :
  existsb p ds = false -> split_first p ds = None.
Proof.
  induction ds as [|d ds IH]; simpl; intros He; [reflexivity|].
  apply orb_false_iff in He as [-> He]. now rewrite (IH He).
Qed.

Lemma split_first_some (p : document -> bool) (ds : list document) :
  existsb p ds = true ->
  exists before m after,
    split_first p ds = Some (before, m, after)
    /\ ds = before ++ m :: after
    /\ p m = true
    /\ existsb p before = false.
Proof.
  induction ds as [|d ds IH]; simpl; intros He; [discriminate|].
  destruct (p d) eqn:Hp.
  - now exists [], d, ds.
  - destruct (IH He) as (b & m & a & -> & -> & Hm & Hb).
    exists (d :: b), m, a. simpl. now rewrite Hp, Hb.
Qed.

(* ===================================================================== *)
(** ** Lazy initialization *)
(* ===================================================================== *)

Lemma wf_collection_inv (c : Collection) :
  wf_collection c = true ->
  forallb (user_shaped (next_oid c)) (docs c) = true
  /\ has_duplicates ix__id (docs c) = false
  /\ has_duplicates ix_id (docs c) = false
  /\ has_duplicates ix_email (docs c) = false
  /\ forallb (fun ix => index_eqb ix ix_id || index_eqb ix ix_email) (indexes c) = true.
Proof.
  unfold wf_collection, wf_docs. rewrite !andb_true_iff, !negb_true_iff. tauto.
Qed.

Lemma index_eqb_eq (a b : index) : index_eqb a b = true -> a = b.
Proof.
  destruct a as [ka ua [[la sa]|]], b as [kb ub [[lb sb]|]];
    unfold index_eqb; simpl; rewrite ?andb_true_iff;
    try (intros [_ Hf]; discriminate Hf).
  - intros [[Hk Hu] [Hl Hs]].
    apply String.eqb_eq in Hk, Hl. apply Bool.eqb_prop in Hu. subst.
    destruct sa as [n|], sb as [m|]; try discriminate Hs; [|reflexivity].
    apply Nat.eqb_eq in Hs. now subst.
  - intros [[Hk Hu] _].
    apply String.eqb_eq in Hk. apply Bool.eqb_prop in Hu. now subst.
Qed.

Lemma create_index_ok (key : string) (unique : bool)
  (collation : option Collation) (c : Collection) :
  forallb (fun ix' => negb (same_key key ix')
                      || index_eqb (mkIndex key unique collation) ix')
    (indexes c) = true ->
  has_duplicates (mkIndex key unique collation) (docs c) = false ->
  create_index key unique collation c
  = (Ok (key ++ "_1")%string,
     mkCollection (docs c) (with_index (mkIndex key unique collation) (indexes c))
       (next_oid c) (calls c ++ [CreateIndex key unique collation])).
Proof.
  intros Hown Hd. unfold create_index, with_index, log. simpl.
  destruct (existsb (index_eqb _) (indexes c)) eqn:He; [reflexivity|].
  destruct (existsb (same_key key) (indexes c)) eqn:Hs.
  - exfalso. apply existsb_exists in Hs as (x & Hx & Hs).
    rewrite forallb_forall in Hown. specialize (Hown x Hx).
    rewrite Hs in Hown. simpl in Hown.
    assert (Hex : existsb (index_eqb (mkIndex key unique collation)) (indexes c) = true)
      by (apply existsb_exists; exists x; now split).
    congruence.
  - now rewrite Hd, andb_false_r.
Qed.

(** The indexes of the adapter are the only ones on their keys. *)
Lemma adapter_indexes_own (ixs : list index) :
  forallb (fun ix => index_eqb ix ix_id || index_eqb ix ix_email) ixs = true ->
  forallb (fun ix' => negb (same_key "id" ix') || index_eqb ix_id ix') ixs = true
  /\ forallb (fun ix' => negb (same_key "email" ix') || index_eqb ix_email ix') ixs
     = true.
Proof.
  intros Hix. rewrite !forallb_forall in *.
  split; intros x Hx; specialize (Hix x Hx);
    apply orb_true_iff in Hix as [Hix|Hix]; apply index_eqb_eq in Hix;
    subst x; reflexivity.
Qed.

Lemma create_index_dup (key : string) (unique : bool)
  (collation : option Collation) (c : Collection) :
  existsb (same_key key) (indexes c) = false ->
  unique = true ->
  has_duplicates (mkIndex key unique collation) (docs c) = true ->
  create_index key unique collation c
  = (Raise (DuplicateKeyError key),
     mkCollection (docs c) (indexes c) (next_oid c)
       (calls c ++ [CreateIndex key unique collation])).
Proof.
  intros Hs -> Hd. unfold create_index, log. simpl.
  destruct (existsb (index_eqb _) (indexes c)) eqn:He.
  - exfalso. apply existsb_exists in He as (x & Hx & He).
    apply index_eqb_eq in He. subst x.
    assert (Hex : existsb (same_key key) (indexes c) = true).
    { apply existsb_exists. eexists. split; [exact Hx|]. apply String.eqb_refl. }
    congruence.
  - now rewrite Hs, Hd.
Qed.

Lemma index_eqb_refl (ix : index) : index_eqb ix ix = true.
Proof.
  destruct ix as [k u [[l [n|]]|]]; unfold index_eqb; simpl;
    rewrite String.eqb_refl, Bool.eqb_reflx, ?String.eqb_refl, ?Nat.eqb_refl;
    reflexivity.
Qed.

Lemma with_index_has (ix : index) (ixs : list index) :
  existsb (index_eqb ix) (with_index ix ixs) = true.
Proof.
  unfold with_index. destruct (existsb (index_eqb ix) ixs) eqn:He; [exact He|].
  rewrite existsb_app. simpl. now rewrite index_eqb_refl, orb_true_r.
Qed.

Lemma with_index_keeps (ix ix' : index) (ixs : list index) :
  existsb (index_eqb ix') ixs = true ->
  existsb (index_eqb ix') (with_index ix ixs) = true.
Proof.
  intros He. unfold with_index. destruct (existsb (index_eqb ix) ixs); [exact He|].
  rewrite existsb_app, He. reflexivity.
Qed.

Lemma with_index_forallb (p : index -> bool) (ix : index) (ixs : list index) :
  p ix = true -> forallb p ixs = true -> forallb p (with_index ix ixs) = true.
Proof.
  intros Hp Hf. unfold with_index. destruct (existsb (index_eqb ix) ixs); [exact Hf|].
  rewrite forallb_app, Hf. simpl. now rewrite Hp.
Qed.

Lemma initialize_initialized (self : MongoDBUserDatabase) :
  initialized self = true -> _initialize self = (Ok tt, self).
Proof.
  intros Hi. unfold _initialize, bind, read. now rewrite Hi.
Qed.

Lemma initialize_fresh (self : MongoDBUserDatabase) :
  initialized self = false ->
  forallb (fun ix => index_eqb ix ix_id || index_eqb ix ix_email)
    (indexes (collection self)) = true ->
  has_duplicates ix_id (docs (collection self)) = false ->
  has_duplicates ix_email (docs (collection self)) = false ->
  _initialize self = (Ok tt, ready self).
Proof.
  intros Hi Hix Hid Hem.
  unfold _initialize, ready, bind, read, await, set_initialized.
  rewrite Hi. change (negb false) with true. cbv beta iota.
  destruct (adapter_indexes_own _ Hix) as [Hown _].
  rewrite (create_index_ok "id" true None _ Hown Hid). cbv beta iota.
  cbn [collection docs indexes next_oid calls initialized email_collation].
  assert (Hix' : forallb (fun ix => index_eqb ix ix_id || index_eqb ix ix_email)
                   (with_index ix_id (indexes (collection self))) = true)
    by (apply with_index_forallb; [reflexivity|exact Hix]).
  destruct (adapter_indexes_own _ Hix') as [_ Hown'].
  rewrite create_index_ok; [|exact Hown'|exact Hem].
  cbn [collection docs indexes next_oid calls initialized email_collation].
  now rewrite <- app_assoc.
Qed.

Lemma create_index_returns (key : string) (unique : bool)
  (collation : option Collation) (c : Collection) (name : string) :
  fst (create_index key unique collation c) = Ok name ->
  snd (create_index key unique collation c)
  = mkCollection (docs c) (with_index (mkIndex key unique collation) (indexes c))
      (next_oid c) (calls c ++ [CreateIndex key unique collation]).
Proof.
  unfold create_index, with_index, log. cbn [docs indexes next_oid calls].
  destruct (existsb (index_eqb _) (indexes c)); [reflexivity|].
  destruct (existsb (same_key key) (indexes c)); [discriminate|].
  destruct (unique && _); [discriminate|reflexivity].
Qed.

(** Whenever lazy initialization returns, the store is [ready]. *)
Lemma initialize_returns (self : MongoDBUserDatabase) :
  fst (_initialize self) = Ok tt -> _initialize self = (Ok tt, ready self).
Proof.
  destruct (initialized self) eqn:Hi.
  - intros _. rewrite (initialize_initialized _ Hi). unfold ready. now rewrite Hi.
  - unfold _initialize, ready, bind, read, await, set_initialized.
    rewrite Hi. change (negb false) with true. cbv beta iota.
    assert (H1 := create_index_returns "id" true None (collection self)).
    destruct (create_index "id" true None (collection self)) as [[n1|e1] c1];
      cbn [fst snd] in *; [|discriminate].
    rewrite (H1 n1 eq_refl).
    cbn [collection docs indexes next_oid calls initialized email_collation].
    match goal with
    | |- context [create_index "email" true None ?c] =>
        assert (H2 := create_index_returns "email" true None c);
        destruct (create_index "email" true None c) as [[n2|e2] c2]
    end; cbn [fst snd] in *; [|discriminate].
    intros _. rewrite (H2 n2 eq_refl).
    cbn [collection docs indexes next_oid calls initialized email_collation].
    now rewrite <- app_assoc.
Qed.

Lemma ready_initialized (self : MongoDBUserDatabase) :
  initialized (ready self) = true.
Proof. unfold ready. now destruct (initialized self) eqn:Hi. Qed.

Lemma initialize_ok (self : MongoDBUserDatabase) :
  wf_store self = true -> _initialize self = (Ok tt, ready self).
Proof.
  unfold wf_store. intros Hw. apply andb_true_iff in Hw as [Hc _].
  destruct (wf_collection_inv _ Hc) as (_ & _ & Hid & Hem & Hix).
  destruct (initialized self) eqn:Hi.
  - rewrite (initialize_initialized _ Hi). unfold ready. now rewrite Hi.
  - now apply initialize_fresh.
Qed.

Lemma ready_docs (self : MongoDBUserDatabase) :
  docs (collection (ready self)) = docs (collection self).
Proof. unfold ready. now destruct (initialized self). Qed.

Lemma ready_next_oid (self : MongoDBUserDatabase) :
  next_oid (collection (ready self)) = next_oid (collection self).
Proof. unfold ready. now destruct (initialized self). Qed.

Lemma ready_email_collation (self : MongoDBUserDatabase) :
  email_collation (ready self) = email_collation self.
Proof. unfold ready. now destruct (initialized self). Qed.

Lemma ready_calls (self : MongoDBUserDatabase) :
  calls (collection (ready self))
  = calls (collection self)
    ++ (if initialized self then []
        else [CreateIndex "id" true None; CreateIndex "email" true None]).
Proof.
  unfold ready. destruct (initialized self); simpl; [|reflexivity].
  now rewrite app_nil_r.
Qed.

(** After lazy initialization the store is initialized, over the same
    collection of users, now with both indexes. *)
Lemma ready_wf (self : MongoDBUserDatabase) :
  wf_store self = true ->
  initialized (ready self) = true
  /\ wf_collection (collection (ready self)) = true
  /\ enforced (collection (ready self)) = true.
Proof.
  unfold wf_store, ready. intros Hw. apply andb_true_iff in Hw as [Hc He].
  destruct (initialized self) eqn:Hi; simpl in He.
  - now rewrite Hi.
  - cbn [initialized collection]. split; [reflexivity|]. split.
    + destruct (wf_collection_inv _ Hc) as (H1 & H2 & H3 & H4 & H5).
      unfold wf_collection, wf_docs. cbn [docs indexes next_oid].
      rewrite H1, H2, H3, H4. simpl.
      apply with_index_forallb; [reflexivity|].
      apply with_index_forallb; [reflexivity|exact H5].
    + unfold enforced. cbn [indexes]. apply andb_true_iff. split.
      * apply with_index_keeps, with_index_has.
      * apply with_index_has.
Qed.

(* ===================================================================== *)
(** ** Unique keys in a collection of users *)
(* ===================================================================== *)

Lemma find_none_all {A : Type} (p : A -> bool) (l : list A) :
  (forall x, In x l -> p x = false) -> find p l = None.
Proof.
  induction l as [|x l IH]; simpl; intros Hp; [reflexivity|].
  rewrite (Hp x) by now left. apply IH. intros y Hy. apply Hp. now right.
Qed.

(** In a well-formed collection a unique index is [_id], [id] or [email]. *)
Lemma unique_indexes_wf (c : Collection) (ix : index) :
  wf_collection c = true ->
  In ix (unique_indexes c) -> ix = ix__id \/ ix = ix_id \/ ix = ix_email.
Proof.
  intros Hw [<-|Hin]; [now left|right].
  destruct (wf_collection_inv _ Hw) as (_ & _ & _ & _ & Hix).
  apply filter_In in Hin as [Hin _].
  rewrite forallb_forall in Hix. specialize (Hix _ Hin).
  apply orb_true_iff in Hix as [Hix|Hix]; apply index_eqb_eq in Hix; auto.
Qed.

Lemma enforced_In (c : Collection) :
  enforced c = true ->
  In ix_id (unique_indexes c) /\ In ix_email (unique_indexes c).
Proof.
  unfold enforced, unique_indexes. intros He.
  apply andb_true_iff in He as [H1 H2].
  apply existsb_exists in H1 as (x & Hx & Ex), H2 as (y & Hy & Ey).
  apply index_eqb_eq in Ex, Ey. subst x y.
  split; right; apply filter_In; now split.
Qed.

Lemma collides_same_key (ix : index) (d d' : document) (ds : list document) :
  index_key ix d = index_key ix d' -> collides ix d ds = collides ix d' ds.
Proof. intros Hk. unfold collides. now rewrite Hk. Qed.

(** A document that shares no key with the documents around it. *)
Lemma has_duplicates_split (ix : index) (b a : list document) (m : document) :
  (forall x, In x b ->
     key_eqb ix (index_key ix m) (index_key ix x)
     = key_eqb ix (index_key ix x) (index_key ix m)) ->
  has_duplicates ix (b ++ m :: a) = false ->
  collides ix m (b ++ a) = false.
Proof.
  induction b as [|x b IH]; simpl; intros Hsym Hd.
  - now apply orb_false_iff in Hd as [Hd _].
  - apply orb_false_iff in Hd as [Hx Hd].
    unfold collides in Hx. rewrite existsb_app in Hx.
    apply orb_false_iff in Hx as [_ Hx]. simpl in Hx.
    apply orb_false_iff in Hx as [Hx _].
    rewrite <- (Hsym x) by now left. rewrite Hx. simpl.
    apply IH; [|exact Hd]. intros y Hy. apply Hsym. now right.
Qed.

Lemma key_eqb_sym_shaped (next next' : N) (ix : index) (d d' : document) :
  ix = ix__id \/ ix = ix_id \/ ix = ix_email ->
  user_shaped next d = true -> user_shaped next' d' = true ->
  key_eqb ix (index_key ix d) (index_key ix d')
  = key_eqb ix (index_key ix d') (index_key ix d).
Proof.
  intros Hix Hd Hd'.
  destruct (user_shaped_inv _ _ Hd) as (n & i & e & Hn & _ & Hi & He).
  destruct (user_shaped_inv _ _ Hd') as (n' & i' & e' & Hn' & _ & Hi' & He').
  unfold key_eqb, index_key.
  destruct Hix as [->|[->| ->]]; simpl.
  - rewrite (doc_oid_field _ _ Hn), (doc_oid_field _ _ Hn'). simpl. apply N.eqb_sym.
  - rewrite (doc_id_field _ _ Hi), (doc_id_field _ _ Hi'). simpl. apply N.eqb_sym.
  - rewrite (doc_email_field _ _ He), (doc_email_field _ _ He'). simpl.
    apply String.eqb_sym.
Qed.

(** In a well-formed collection, a stored document shares none of its
    three keys with the other documents. *)
Lemma wf_others_distinct (c : Collection) (b a : list document) (m : document)
  (ix : index) :
  wf_collection c = true ->
  docs c = b ++ m :: a ->
  ix = ix__id \/ ix = ix_id \/ ix = ix_email ->
  collides ix m (b ++ a) = false.
Proof.
  intros Hw Hds Hix.
  destruct (wf_collection_inv _ Hw) as (Hs & H1 & H2 & H3 & _).
  rewrite Hds in *. rewrite forallb_app in Hs.
  apply andb_true_iff in Hs as [Hsb Hsa]. simpl in Hsa.
  apply andb_true_iff in Hsa as [Hsm Hsa].
  apply has_duplicates_split.
  - intros x Hx. rewrite forallb_forall in Hsb.
    now apply (key_eqb_sym_shaped (next_oid c) (next_oid c)); [|exact Hsm|apply Hsb].
  - now destruct Hix as [->|[->| ->]].
Qed.

Lemma has_email_others (next : N) (i : uuid) (e : string) (ds : list document) :
  forallb (user_shaped next) ds = true ->
  has_id i ds = false -> email_of_other i e ds = false ->
  has_email e ds = false.
Proof.
  induction ds as [|d ds IH]; simpl; intros Hs Hi He; [reflexivity|].
  apply andb_true_iff in Hs as [Hs1 Hs2].
  apply orb_false_iff in Hi as [Hi1 Hi2].
  apply orb_false_iff in He as [He1 He2].
  rewrite (IH Hs2 Hi2 He2), orb_false_r.
  destruct (user_shaped_inv _ _ Hs1) as (_ & j & e' & _ & _ & Hj & He').
  rewrite Hj, He' in *. now rewrite Hi1 in He1.
Qed.

(* ===================================================================== *)
(** ** The operations of the collection on a collection of users *)
(* ===================================================================== *)

Lemma insert_one_fresh (c : Collection) (d : document) (i : uuid) (e : string) :
  wf_collection c = true ->
  get_field "_id" d = None -> doc_id d = Some i -> doc_email d = Some e ->
  has_id i (docs c) = false -> has_email e (docs c) = false ->
  insert_one d c
  = (Ok (VObjectId (next_oid c)),
     mkCollection (docs c ++ [("_id", VObjectId (next_oid c)) :: d]) (indexes c)
       (N.succ (next_oid c)) (calls c ++ [InsertOne d])).
Proof.
  intros Hw Hoid Hi He Hfi Hfe. unfold insert_one, has_field, log.
  rewrite Hoid. cbn [docs indexes next_oid calls].
  set (d' := ("_id", VObjectId (next_oid c)) :: d).
  destruct (wf_collection_inv _ Hw) as (Hs & _).
  assert (Hnone : violated (unique_indexes (mkCollection (docs c) (indexes c)
                     (next_oid c) (calls c ++ [InsertOne d]))) d' (docs c) = None).
  { apply find_none_all. intros ix Hin.
    apply (unique_indexes_wf c) in Hin; [|exact Hw].
    destruct Hin as [->|[->| ->]].
    - apply (collides_oid d' (next_oid c) (next_oid c)); [exact Hs|reflexivity|lia].
    - rewrite (collides_id d' i); [exact Hfi|exact Hi].
    - rewrite (collides_email d' e); [exact Hfe|exact He]. }
  rewrite Hnone. reflexivity.
Qed.

Lemma insert_one_taken (c : Collection) (d : document) (i : uuid) (e : string) :
  wf_collection c = true -> enforced c = true ->
  get_field "_id" d = None -> doc_id d = Some i -> doc_email d = Some e ->
  has_id i (docs c) || has_email e (docs c) = true ->
  exists key,
    (key = "id" \/ key = "email")
    /\ insert_one d c
       = (Raise (DuplicateKeyError key),
          mkCollection (docs c) (indexes c) (N.succ (next_oid c))
            (calls c ++ [InsertOne d])).
Proof.
  intros Hw Hen Hoid Hi He Htaken. unfold insert_one, has_field, log.
  rewrite Hoid. cbn [docs indexes next_oid calls].
  set (d' := ("_id", VObjectId (next_oid c)) :: d).
  set (c' := mkCollection (docs c) (indexes c) (next_oid c) (calls c ++ [InsertOne d])).
  destruct (wf_collection_inv _ Hw) as (Hs & _).
  destruct (enforced_In _ Hen) as [Hinid Hinem].
  change (unique_indexes c') with (unique_indexes c).
  destruct (violated (unique_indexes c) d' (docs c)) as [ix|] eqn:Hv.
  - apply find_some in Hv as [Hin Hcol].
    destruct (unique_indexes_wf c ix Hw Hin) as [->|[->| ->]].
    + rewrite (collides_oid d' (next_oid c) (next_oid c)) in Hcol;
        [discriminate|exact Hs|reflexivity|lia].
    + exists "id". split; [now left|reflexivity].
    + exists "email". split; [now right|reflexivity].
  - exfalso. unfold violated in Hv.
    apply orb_true_iff in Htaken as [Ht|Ht].
    + apply (find_none _ _ Hv) in Hinid.
      rewrite (collides_id d' i) in Hinid; [congruence|exact Hi].
    + apply (find_none _ _ Hv) in Hinem.
      rewrite (collides_email d' e) in Hinem; [congruence|exact He].
Qed.

Lemma replace_one_absent (c : Collection) (q : query) (d : document) :
  existsb (matches String.eqb q) (docs c) = false ->
  replace_one q d c = (Ok 0, log (ReplaceOne q d) c).
Proof.
  intros Hn. unfold replace_one. cbn [log docs].
  now rewrite (split_first_none _ _ Hn).
Qed.

Lemma delete_one_absent (c : Collection) (q : query) :
  existsb (matches String.eqb q) (docs c) = false ->
  delete_one q c = (Ok 0, log (DeleteOne q) c).
Proof.
  intros Hn. unfold delete_one. cbn [log docs].
  now rewrite (split_first_none _ _ Hn).
Qed.

(** The document the filter [{"id": i}] selects in a collection of users
    that has one for [i]: the only one with that id. *)
Lemma split_first_id (c : Collection) (i : uuid) :
  wf_collection c = true -> has_id i (docs c) = true ->
  exists b old a,
    split_first (matches String.eqb [("id", VUuid i)]) (docs c) = Some (b, old, a)
    /\ docs c = b ++ old :: a
    /\ doc_id old = Some i
    /\ existsb (matches String.eqb [("id", VUuid i)]) b = false
    /\ forallb (user_shaped (next_oid c)) (b ++ a) = true
    /\ has_id i (b ++ a) = false.
Proof.
  intros Hw Hi.
  destruct (wf_collection_inv _ Hw) as (Hs & _).
  rewrite <- (has_id_matches _ _ _ Hs) in Hi.
  destruct (split_first_some _ _ Hi) as (b & old & a & Hsp & Hds & Hm & Hb).
  exists b, old, a.
  assert (Hs' := Hs). rewrite Hds, forallb_app in Hs'.
  apply andb_true_iff in Hs' as [Hsb Hsa]. simpl in Hsa.
  apply andb_true_iff in Hsa as [Hsm Hsa].
  destruct (user_shaped_inv _ _ Hsm) as (_ & j & _ & _ & _ & Hj & _).
  rewrite (matches_id _ i _ Hj) in Hm. apply N.eqb_eq in Hm. subst j.
  repeat split; try assumption.
  - now rewrite forallb_app, Hsb, Hsa.
  - rewrite <- (collides_id old i) by exact Hj.
    apply (wf_others_distinct c); auto.
Qed.

Lemma replace_one_present (c : Collection) (d : document) (i : uuid) (e : string) :
  wf_collection c = true ->
  get_field "_id" d = None -> doc_id d = Some i -> doc_email d = Some e ->
  has_id i (docs c) = true -> email_of_other i e (docs c) = false ->
  exists b old a,
    docs c = b ++ old :: a
    /\ doc_id old = Some i
    /\ existsb (matches String.eqb [("id", VUuid i)]) b = false
    /\ replace_one [("id", VUuid i)] d c
       = (Ok 1,
          mkCollection (b ++ (("_id", index_key ix__id old) :: d) :: a)
            (indexes c) (next_oid c)
            (calls c ++ [ReplaceOne [("id", VUuid i)] d])).
Proof.
  intros Hw Hoid Hi He Hhas Hother.
  destruct (split_first_id c i Hw Hhas) as (b & old & a & Hsp & Hds & Hold & Hb & Hs & Hrest).
  exists b, old, a. repeat split; try assumption.
  unfold replace_one. cbn [log docs indexes next_oid calls].
  rewrite Hsp, Hoid.
  set (d' := ("_id", index_key ix__id old) :: d).
  change (unique_indexes (log (ReplaceOne [("id", VUuid i)] d) c))
    with (unique_indexes c).
  assert (Hnone : violated (unique_indexes c) d' (b ++ a) = None).
  { apply find_none_all. intros ix Hin.
    apply (unique_indexes_wf c) in Hin; [|exact Hw].
    destruct Hin as [->|[->| ->]].
    - rewrite (collides_same_key ix__id d' old) by reflexivity.
      apply (wf_others_distinct c); auto.
    - rewrite (collides_id d' i) by exact Hi. exact Hrest.
    - rewrite (collides_email d' e) by exact He.
      apply (has_email_others (next_oid c) i); [exact Hs|exact Hrest|].
      unfold email_of_other in *. rewrite Hds in Hother.
      rewrite existsb_app in *. simpl in Hother.
      apply orb_false_iff in Hother as [H1 H2].
      apply orb_false_iff in H2 as [_ H2]. now rewrite H1, H2. }
  now rewrite Hnone.
Qed.

Lemma delete_one_id (c : Collection) (i : uuid) :
  wf_collection c = true ->
  exists n c',
    delete_one [("id", VUuid i)] c = (Ok n, c')
    /\ existsb (matches String.eqb [("id", VUuid i)]) (docs c') = false
    /\ (has_id i (docs c) = false -> n = 0 /\ docs c' = docs c)
    /\ (has_id i (docs c) = true -> n = 1 /\ S (List.length (docs c')) = List.length (docs c))
    /\ calls c' = calls c ++ [DeleteOne [("id", VUuid i)]].
Proof.
  intros Hw. destruct (wf_collection_inv _ Hw) as (Hs & _).
  destruct (has_id i (docs c)) eqn:Hi.
  - destruct (split_first_id c i Hw Hi) as (b & old & a & Hsp & Hds & _ & _ & Hs' & Hrest).
    unfold delete_one. cbn [log docs indexes next_oid calls]. rewrite Hsp.
    eexists _, _. split; [reflexivity|]. cbn [docs calls].
    repeat split; try discriminate.
    + now rewrite (has_id_matches _ _ _ Hs').
    + rewrite Hds, !length_app. simpl. lia.
  - rewrite <- (has_id_matches _ _ _ Hs) in Hi.
    rewrite (delete_one_absent _ _ Hi).
    eexists _, _. split; [reflexivity|]. cbn [log docs calls].
    repeat split; try discriminate; assumption.
Qed.

(* ===================================================================== *)
(** ** The calls an operation issues *)
(* ===================================================================== *)

Lemma find_one_calls (q : query) (col : option Collation) (c : Collection) :
  calls (snd (find_one q col c)) = calls c ++ [FindOne q col].
Proof. reflexivity. Qed.

Lemma insert_one_calls (d : document) (c : Collection) :
  calls (snd (insert_one d c)) = calls c ++ [InsertOne d].
Proof.
  unfold insert_one. destruct (has_field "_id" d);
    destruct (violated _ _ _); reflexivity.
Qed.

Lemma replace_one_calls (q : query) (d : document) (c : Collection) :
  calls (snd (replace_one q d c)) = calls c ++ [ReplaceOne q d].
Proof.
  unfold replace_one. destruct (split_first _ _) as [[[b old] a]|]; [|reflexivity].
  destruct (get_field "_id" d) as [v|].
  - destruct (value_eqb _ _ _); [|reflexivity]. destruct (violated _ _ _); reflexivity.
  - destruct (violated _ _ _); reflexivity.
Qed.

Lemma delete_one_calls (q : query) (c : Collection) :
  calls (snd (delete_one q c)) = calls c ++ [DeleteOne q].
Proof.
  unfold delete_one. destruct (split_first _ _) as [[[b old] a]|]; reflexivity.
Qed.

Lemma create_index_calls (key : string) (unique : bool)
  (col : option Collation) (c : Collection) :
  calls (snd (create_index key unique col c)) = calls c ++ [CreateIndex key unique col].
Proof.
  unfold create_index. destruct (existsb (index_eqb _) _); [reflexivity|].
  destruct (existsb (same_key key) _); [reflexivity|].
  destruct (unique && _); reflexivity.
Qed.

(* ===================================================================== *)
(** ** The methods, once lazy initialization goes through *)
(* ===================================================================== *)

Lemma initialize_runs (self : MongoDBUserDatabase) :
  initialized self = true \/ wf_store self = true ->
  _initialize self = (Ok tt, ready self).
Proof.
  intros [Hi|Hw]; [|now apply initialize_ok].
  rewrite (initialize_initialized _ Hi). unfold ready. now rewrite Hi.
Qed.

Lemma init_then {A B : Type} (op : Collection -> result A * Collection)
  (k : A -> M B) (self : MongoDBUserDatabase) :
  _initialize self = (Ok tt, ready self) ->
  (_initialize ;; x <- await op ;; k x) self
  = match op (collection (ready self)) with
    | (Ok a, c) => k a (over c (ready self))
    | (Raise e, c) => (Raise e, over c (ready self))
    end.
Proof.
  intros Hi. unfold bind, await, over. rewrite Hi.
  destruct (op (collection (ready self))) as [[a|e] c]; reflexivity.
Qed.

Section Store.

Context {UD : Type} `{UserModel UD}.

Lemma model_or_none_valid (u : UD) (oid : value) (self : MongoDBUserDatabase) :
  valid_user u ->
  model_or_none (Some (("_id", oid) :: dict u)) self = (Ok (Some u), self).
Proof.
  intros (_ & _ & _ & Hrt). unfold model_or_none. now rewrite Hrt.
Qed.

Lemma get_run (id : uuid) (self : MongoDBUserDatabase) :
  _initialize self = (Ok tt, ready self) ->
  get id self
  = model_or_none
      (find (matches String.eqb [("id", VUuid id)]) (docs (collection self)))
      (over (log (FindOne [("id", VUuid id)] None) (collection (ready self)))
         (ready self)).
Proof.
  intros Hi. unfold get. rewrite (init_then _ _ _ Hi).
  unfold find_one. cbn [log docs]. now rewrite ready_docs.
Qed.

Lemma get_by_email_run (email : string) (self : MongoDBUserDatabase) :
  _initialize self = (Ok tt, ready self) ->
  get_by_email email self
  = model_or_none
      (find (matches (collation_eqb (email_collation self)) [("email", VStr email)])
         (docs (collection self)))
      (over (log (FindOne [("email", VStr email)] (Some (email_collation self)))
               (collection (ready self)))
         (ready self)).
Proof.
  intros Hi. unfold get_by_email, bind, read, await, find_one, over. rewrite Hi.
  cbn [log docs fst snd streq_of]. now rewrite ready_docs, ready_email_collation.
Qed.

Lemma get_by_oauth_account_run (oauth account_id : string)
  (self : MongoDBUserDatabase) :
  _initialize self = (Ok tt, ready self) ->
  get_by_oauth_account oauth account_id self
  = model_or_none
      (find (matches String.eqb [("oauth_accounts.oauth_name", VStr oauth);
                                 ("oauth_accounts.account_id", VStr account_id)])
         (docs (collection self)))
      (over (log (FindOne [("oauth_accounts.oauth_name", VStr oauth);
                           ("oauth_accounts.account_id", VStr account_id)] None)
               (collection (ready self)))
         (ready self)).
Proof.
  intros Hi. unfold get_by_oauth_account. rewrite (init_then _ _ _ Hi).
  unfold find_one. cbn [log docs]. now rewrite ready_docs.
Qed.

Lemma create_run (user : UD) (self : MongoDBUserDatabase) :
  _initialize self = (Ok tt, ready self) ->
  create user self
  = match insert_one (dict user) (collection (ready self)) with
    | (Ok _, c) => (Ok user, over c (ready self))
    | (Raise e, c) => (Raise e, over c (ready self))
    end.
Proof. intros Hi. unfold create. now rewrite (init_then _ _ _ Hi). Qed.

Lemma update_run (user : UD) (self : MongoDBUserDatabase) :
  _initialize self = (Ok tt, ready self) ->
  update user self
  = match replace_one [("id", VUuid (user_id user))] (dict user)
            (collection (ready self)) with
    | (Ok _, c) => (Ok user, over c (ready self))
    | (Raise e, c) => (Raise e, over c (ready self))
    end.
Proof. intros Hi. unfold update. now rewrite (init_then _ _ _ Hi). Qed.

Lemma delete_run (user : UD) (self : MongoDBUserDatabase) :
  _initialize self = (Ok tt, ready self) ->
  delete user self
  = match delete_one [("id", VUuid (user_id user))] (collection (ready self)) with
    | (Ok _, c) => (Ok tt, over c (ready self))
    | (Raise e, c) => (Raise e, over c (ready self))
    end.
Proof. intros Hi. unfold delete. now rewrite (init_then _ _ _ Hi). Qed.

(** A lookup by id in an initialized store over [ds ++ d :: rest], where
    [d] is the first document of the id. *)
Lemma get_finds (self : MongoDBUserDatabase) (u : UD) (oid : value)
  (b a : list document) :
  initialized self = true ->
  valid_user u ->
  docs (collection self) = b ++ (("_id", oid) :: dict u) :: a ->
  existsb (matches String.eqb [("id", VUuid (user_id u))]) b = false ->
  fst (get (user_id u) self) = Ok (Some u).
Proof.
  intros Hi Hv Hds Hb.
  rewrite get_run by (apply initialize_runs; now left).
  rewrite Hds, (find_skip _ _ _ Hb). cbn [find].
  destruct Hv as (Hv1 & Hv2 & Hv3 & Hv4).
  rewrite (matches_id (("_id", oid) :: dict u) (user_id u) (user_id u)) by exact Hv2.
  rewrite N.eqb_refl. unfold model_or_none. now rewrite Hv4.
Qed.

End Store.

(* ===================================================================== *)
(** ** Users of the application model are valid *)
(* ===================================================================== *)

Lemma oauths_of_dict (l : list AppUser.OAuthAccount) :
  AppUser.oauths_of (map AppUser.oauth_dict l) = Some l.
Proof.
  induction l as [|[n t a e] l IH]; simpl; [reflexivity|].
  simpl in IH. now rewrite IH.
Qed.

Lemma app_user_valid (u : AppUser.User) : valid_user u.
Proof.
  destruct u as [i e h a s f l]. unfold valid_user. simpl.
  repeat split; try reflexivity.
  - now exists e.
  - intros oid. unfold AppUser.user_of. simpl. now rewrite oauths_of_dict.
Qed.

(* ===================================================================== *)
(** ** Create *)
(* ===================================================================== *)

Section Create.

Context {UD : Type} `{UserModel UD}.

Lemma create_fresh (self : MongoDBUserDatabase) (u : UD) (e : string) :
  wf_store self = true -> valid_user u -> doc_email (dict u) = Some e ->
  has_id (user_id u) (docs (collection self)) = false ->
  has_email e (docs (collection self)) = false ->
  create u self = (Ok u, created u self).
Proof.
  intros Hw (Hv1 & Hv2 & _) He Hi Hm.
  destruct (ready_wf _ Hw) as (_ & Hwc & _).
  rewrite create_run by (apply initialize_runs; now right).
  rewrite (insert_one_fresh _ _ (user_id u) e Hwc Hv1 Hv2 He).
  - reflexivity.
  - now rewrite ready_docs.
  - now rewrite ready_docs.
Qed.

Lemma create_taken (self : MongoDBUserDatabase) (u : UD) (e : string) :
  wf_store self = true -> valid_user u -> doc_email (dict u) = Some e ->
  has_id (user_id u) (docs (collection self))
  || has_email e (docs (collection self)) = true ->
  exists key,
    (key = "id" \/ key = "email")
    /\ create u self = (Raise (DuplicateKeyError key), refused u self).
Proof.
  intros Hw (Hv1 & Hv2 & _) He Ht.
  destruct (ready_wf _ Hw) as (_ & Hwc & Hen).
  rewrite create_run by (apply initialize_runs; now right).
  destruct (insert_one_taken _ _ (user_id u) e Hwc Hen Hv1 Hv2 He) as (key & Hk & Hins).
  - now rewrite ready_docs.
  - exists key. split; [exact Hk|]. now rewrite Hins.
Qed.

Lemma created_docs (u : UD) (self : MongoDBUserDatabase) :
  docs (collection (created u self))
  = docs (collection self)
    ++ [("_id", VObjectId (next_oid (collection self))) :: dict u].
Proof.
  unfold created, over. cbn [collection docs].
  now rewrite ready_docs, ready_next_oid.
Qed.

Lemma created_initialized (u : UD) (self : MongoDBUserDatabase) :
  wf_store self = true -> initialized (created u self) = true.
Proof. intros Hw. now destruct (ready_wf _ Hw) as (Hi & _). Qed.

Lemma created_email_collation (u : UD) (self : MongoDBUserDatabase) :
  email_collation (created u self) = email_collation self.
Proof. unfold created, over. cbn. apply ready_email_collation. Qed.

End Create.

(** C3. For every valid user [u] whose id and email are not stored yet (its
    OAuth pairs may be anything), [create u] returns [u], the collection
    gains the whole serialisation of [u] under a fresh [_id], and
    [get (user_id u)] then returns a user equal to [u]. *)
Theorem create_then_get_roundtrip {UD : Type} `{UserModel UD}
  (self : MongoDBUserDatabase) (u : UD) (e : string) :
  wf_store self = true -> valid_user u -> doc_email (dict u) = Some e ->
  has_id (user_id u) (docs (collection self)) = false ->
  has_email e (docs (collection self)) = false ->
  fst (create u self) = Ok u
  /\ docs (collection (snd (create u self)))
     = docs (collection self)
       ++ [("_id", VObjectId (next_oid (collection self))) :: dict u]
  /\ fst (get (user_id u) (snd (create u self))) = Ok (Some u).
Proof.
  intros Hw Hv He Hi Hm.
  rewrite (create_fresh self u e Hw Hv He Hi Hm). cbn [fst snd].
  split; [reflexivity|]. split; [apply created_docs|].
  apply (get_finds _ u (VObjectId (next_oid (collection self)))
           (docs (collection self)) []).
  - now apply created_initialized.
  - exact Hv.
  - apply created_docs.
  - apply andb_true_iff in Hw as [Hc _].
    destruct (wf_collection_inv _ Hc) as (Hs & _).
    now rewrite (has_id_matches _ _ _ Hs).
Qed.

Lemma create_then_get_roundtrip_witness :
  fst (create Examples.alice Examples.with_bob) = Ok Examples.alice
  /\ fst (get 1%N (snd (create Examples.alice Examples.with_bob)))
     = Ok (Some Examples.alice).
Proof.
  destruct (create_then_get_roundtrip Examples.with_bob Examples.alice "A@B.com")
    as (H1 & _ & H3);
    [reflexivity|apply app_user_valid|reflexivity|reflexivity|reflexivity|].
  split; [exact H1|exact H3].
Defined.

(** C5. In a store that already holds a document with the id or with the
    email (plain equality) of the valid user [u], [create u] raises the
    duplicate-key error of the [id] or of the [email] index, and the stored
    documents are what they were. *)
Theorem create_duplicate_id_or_email_fails {UD : Type} `{UserModel UD}
  (self : MongoDBUserDatabase) (u : UD) (e : string) :
  wf_store self = true -> valid_user u -> doc_email (dict u) = Some e ->
  has_id (user_id u) (docs (collection self))
  || has_email e (docs (collection self)) = true ->
  exists key,
    (key = "id" \/ key = "email")
    /\ fst (create u self) = Raise (DuplicateKeyError key)
    /\ docs (collection (snd (create u self))) = docs (collection self).
Proof.
  intros Hw Hv He Ht.
  destruct (create_taken self u e Hw Hv He Ht) as (key & Hk & ->).
  exists key. cbn [fst snd]. repeat split; [exact Hk|].
  unfold refused, over. cbn [collection docs]. apply ready_docs.
Qed.

Lemma create_duplicate_id_or_email_fails_witness :
  exists key,
    (key = "id" \/ key = "email")
    /\ fst (create Examples.alice_moved Examples.with_bob_alice)
       = Raise (DuplicateKeyError key)
    /\ docs (collection (snd (create Examples.alice_moved Examples.with_bob_alice)))
       = docs (collection Examples.with_bob_alice).
Proof.
  apply (create_duplicate_id_or_email_fails _ _ "a@b.com");
    [reflexivity|apply app_user_valid|reflexivity|reflexivity].
Defined.

(** C2, the claim as stated fails: Carol is new, her account [(google, 1)]
    is the one Alice holds, and [create] stores her all the same. *)
Lemma create_shared_oauth_pair_succeeds :
  existsb (has_account "google" "1") (docs (collection Examples.with_alice)) = true
  /\ has_account "google" "1" (dict Examples.carol) = true
  /\ fst (create Examples.carol Examples.with_alice) = Ok Examples.carol
  /\ forall key,
       fst (create Examples.carol Examples.with_alice) <> Raise (DuplicateKeyError key).
Proof.
  repeat split; try reflexivity. intros key. vm_compute. discriminate.
Qed.

(** C2, amended. In a store holding a document with the OAuth pair
    [(p, a)], [create] of a valid user who also holds [(p, a)] raises a
    duplicate-key error exactly when the id or the plain email of the user
    is already stored, and then for the [id] or [email] index; otherwise
    it returns the user: no index covers the pairs. *)
Theorem create_ignores_oauth_pairs {UD : Type} `{UserModel UD}
  (self : MongoDBUserDatabase) (u : UD) (e p a : string) :
  wf_store self = true -> valid_user u -> doc_email (dict u) = Some e ->
  existsb (has_account p a) (docs (collection self)) = true ->
  has_account p a (dict u) = true ->
  (has_id (user_id u) (docs (collection self))
   || has_email e (docs (collection self)) = false ->
   fst (create u self) = Ok u)
  /\ (has_id (user_id u) (docs (collection self))
      || has_email e (docs (collection self)) = true ->
      exists key,
        (key = "id" \/ key = "email")
        /\ fst (create u self) = Raise (DuplicateKeyError key)).
Proof.
  intros Hw Hv He _ _. split.
  - intros Hf. apply orb_false_iff in Hf as [Hi Hm].
    now rewrite (create_fresh self u e Hw Hv He Hi Hm).
  - intros Ht. destruct (create_taken self u e Hw Hv He Ht) as (key & Hk & ->).
    now exists key.
Qed.

Lemma create_ignores_oauth_pairs_witness :
  fst (create Examples.carol Examples.with_alice) = Ok Examples.carol.
Proof.
  apply (create_ignores_oauth_pairs Examples.with_alice Examples.carol
           "carol@b.com" "google" "1");
    [reflexivity|apply app_user_valid|reflexivity|reflexivity|reflexivity|reflexivity].
Defined.

(* ===================================================================== *)
(** ** Lookup by email *)
(* ===================================================================== *)

Lemma has_email_by_matches (next : N) (streq : string -> string -> bool)
  (q : string) (ds : list document) :
  forallb (user_shaped next) ds = true ->
  existsb (matches streq [("email", VStr q)]) ds = has_email_by streq q ds.
Proof.
  induction ds as [|d ds IH]; cbn [forallb existsb has_email_by]; intros Hs;
    [reflexivity|].
  apply andb_true_iff in Hs as [Hs1 Hs2].
  destruct (user_shaped_inv _ _ Hs1) as (_ & _ & e' & _ & _ & _ & He').
  rewrite (matches_email _ _ q _ He'), He'. f_equal. exact (IH Hs2).
Qed.

Section EmailLookup.

Context {UD : Type} `{UserModel UD}.

(** The lookup of the adapter is the one over the stand-in comparison. *)
Lemma get_by_email_is_under (email : string) (self : MongoDBUserDatabase) :
  get_by_email email self = get_by_email_under collation_eqb email self.
Proof. reflexivity. Qed.

Lemma get_by_email_under_run (collate : Collation -> string -> string -> bool)
  (email : string) (self : MongoDBUserDatabase) :
  _initialize self = (Ok tt, ready self) ->
  get_by_email_under collate email self
  = model_or_none
      (find (matches (collate (email_collation self)) [("email", VStr email)])
         (docs (collection self)))
      (over (log (FindOne [("email", VStr email)] (Some (email_collation self)))
               (collection (ready self)))
         (ready self)).
Proof.
  intros Hi. unfold get_by_email_under, bind, read, await, find_one_under, over.
  rewrite Hi. cbn [log docs fst snd]. now rewrite ready_docs, ready_email_collation.
Qed.

End EmailLookup.

(** C6, the claim as stated fails: Bob is stored with ["a@b.com"], Alice is
    created with ["A@B.com"], and the lookup of Alice's own address returns
    Bob, whose document comes first. *)
Lemma get_by_email_returns_earlier_user :
  fst (create Examples.alice Examples.with_bob) = Ok Examples.alice
  /\ collation_eqb (email_collation Examples.with_bob)
       (AppUser.email Examples.alice) "A@B.com" = true
  /\ fst (get_by_email "A@B.com" (snd (create Examples.alice Examples.with_bob)))
     = Ok (Some Examples.bob)
  /\ fst (get_by_email "A@B.com" (snd (create Examples.alice Examples.with_bob)))
     <> Ok (Some Examples.alice).
Proof.
  repeat split; try reflexivity. vm_compute. discriminate.
Qed.

(** C6, amended. Without a collation argument the store is built with the
    collation of locale ["en"] at strength 2, the level at which the
    storage engine ignores case and not accents.  Whatever comparison
    [collate] the engine implements: for every valid user [u] whose id and
    plain email are new, and every query [q] that the engine takes for
    equal to the email of [u] under the collation of the store, [create u]
    succeeds and the lookup by email of [q] then returns [u], provided no
    document stored before [u] has an email the engine takes for equal to
    [q] under that collation. *)
Theorem get_by_email_after_create {UD : Type} `{UserModel UD} :
  (forall c, email_collation (__init__ c None) = mkCollation "en" (Some 2))
  /\ forall (collate : Collation -> string -> string -> bool)
            (self : MongoDBUserDatabase) (u : UD) (e q : string),
       wf_store self = true -> valid_user u -> doc_email (dict u) = Some e ->
       has_id (user_id u) (docs (collection self)) = false ->
       has_email e (docs (collection self)) = false ->
       collate (email_collation self) e q = true ->
       has_email_by (collate (email_collation self)) q (docs (collection self))
       = false ->
       fst (create u self) = Ok u
       /\ fst (get_by_email_under collate q (snd (create u self))) = Ok (Some u).
Proof.
  split; [reflexivity|].
  intros collate self u e q Hw Hv He Hi Hm Heq Hu.
  rewrite (create_fresh self u e Hw Hv He Hi Hm). cbn [fst snd].
  split; [reflexivity|].
  rewrite get_by_email_under_run
    by (apply initialize_runs; left; now apply created_initialized).
  rewrite created_docs, created_email_collation.
  apply andb_true_iff in Hw as [Hc _].
  destruct (wf_collection_inv _ Hc) as (Hs & _).
  rewrite find_skip by now rewrite (has_email_by_matches _ _ _ _ Hs).
  cbn [find].
  rewrite (matches_email _ (("_id", _) :: dict u) q e) by exact He.
  rewrite Heq. now rewrite model_or_none_valid.
Qed.

Lemma get_by_email_after_create_witness :
  fst (create Examples.alice Examples.with_carol) = Ok Examples.alice
  /\ fst (get_by_email "a@b.com" (snd (create Examples.alice Examples.with_carol)))
     = Ok (Some Examples.alice).
Proof.
  apply (proj2 get_by_email_after_create collation_eqb
           Examples.with_carol Examples.alice "A@B.com" "a@b.com");
    [reflexivity|apply app_user_valid|reflexivity|reflexivity|reflexivity
    |reflexivity|reflexivity].
Defined.

(* ===================================================================== *)
(** ** Update and delete *)
(* ===================================================================== *)

(** C7, the claim as stated fails: Alice's id is stored, her new email is
    Bob's, so the [email] index refuses the replacement; [get] still
    returns Alice as she was. *)
Lemma update_email_taken_keeps_old_document :
  has_id (user_id Examples.alice_moved) (docs (collection Examples.with_bob_alice)) = true
  /\ fst (update Examples.alice_moved Examples.with_bob_alice)
     = Raise (DuplicateKeyError "email")
  /\ fst (get 1%N (snd (update Examples.alice_moved Examples.with_bob_alice)))
     = Ok (Some Examples.alice)
  /\ fst (get 1%N (snd (update Examples.alice_moved Examples.with_bob_alice)))
     <> Ok (Some Examples.alice_moved).
Proof.
  repeat split; try reflexivity. vm_compute. discriminate.
Qed.

(** C7, amended. When the id of [u] matches no stored document, [update u]
    returns [u] and the documents are what they were.  When it matches one
    and no other document has the email of [u] (plain equality), [update u]
    returns [u], the matched document becomes its [_id] followed by the
    serialisation of [u] and nothing else, and [get (user_id u)] returns
    exactly [u]. *)
Theorem update_replaces_or_leaves {UD : Type} `{UserModel UD}
  (self : MongoDBUserDatabase) (u : UD) (e : string) :
  wf_store self = true ->
  (has_id (user_id u) (docs (collection self)) = false ->
   fst (update u self) = Ok u
   /\ docs (collection (snd (update u self))) = docs (collection self))
  /\ (valid_user u -> doc_email (dict u) = Some e ->
      has_id (user_id u) (docs (collection self)) = true ->
      email_of_other (user_id u) e (docs (collection self)) = false ->
      fst (update u self) = Ok u
      /\ fst (get (user_id u) (snd (update u self))) = Ok (Some u)
      /\ exists b old a,
           docs (collection self) = b ++ old :: a
           /\ doc_id old = Some (user_id u)
           /\ docs (collection (snd (update u self)))
              = b ++ (("_id", index_key ix__id old) :: dict u) :: a).
Proof.
  intros Hw.
  destruct (ready_wf _ Hw) as (Hri & Hwc & _).
  assert (Hs : forallb (user_shaped (next_oid (collection (ready self))))
                 (docs (collection (ready self))) = true)
    by now destruct (wf_collection_inv _ Hwc).
  rewrite update_run by (apply initialize_runs; now right).
  split.
  - intros Hi. rewrite <- ready_docs in Hi.
    rewrite <- (has_id_matches _ _ _ Hs) in Hi.
    rewrite (replace_one_absent _ _ _ Hi). cbn [fst snd over collection log docs].
    split; [reflexivity|apply ready_docs].
  - intros Hv He Hi Ho.
    assert (Hv' := Hv). destruct Hv' as (Hv1 & Hv2 & _).
    rewrite <- ready_docs in Hi, Ho.
    destruct (replace_one_present _ _ _ e Hwc Hv1 Hv2 He Hi Ho)
      as (b & old & a & Hds & Hold & Hb & ->).
    cbn [fst snd]. split; [reflexivity|]. split.
    + apply (get_finds _ u (index_key ix__id old) b a); auto.
    + exists b, old, a. rewrite <- Hds. now rewrite ready_docs.
Qed.

Lemma update_replaces_or_leaves_witness :
  fst (update Examples.alice_moved Examples.with_alice) = Ok Examples.alice_moved
  /\ fst (get 1%N (snd (update Examples.alice_moved Examples.with_alice)))
     = Ok (Some Examples.alice_moved).
Proof.
  destruct (proj2 (update_replaces_or_leaves Examples.with_alice
                     Examples.alice_moved "a@b.com" eq_refl))
    as (H1 & H2 & _);
    [apply app_user_valid|reflexivity|reflexivity|reflexivity|].
  split; [exact H1|exact H2].
Defined.

(** C8. For every user [u], [delete u] returns normally and
    [get (user_id u)] then returns [None]; when no document has the id of
    [u] the documents are what they were, and otherwise one is gone. *)
Theorem delete_then_get_absent {UD : Type} `{UserModel UD}
  (self : MongoDBUserDatabase) (u : UD) :
  wf_store self = true ->
  fst (delete u self) = Ok tt
  /\ fst (get (user_id u) (snd (delete u self))) = Ok None
  /\ (has_id (user_id u) (docs (collection self)) = false ->
      docs (collection (snd (delete u self))) = docs (collection self))
  /\ (has_id (user_id u) (docs (collection self)) = true ->
      S (List.length (docs (collection (snd (delete u self)))))
      = List.length (docs (collection self))).
Proof.
  intros Hw.
  destruct (ready_wf _ Hw) as (Hri & Hwc & _).
  rewrite delete_run by (apply initialize_runs; now right).
  destruct (delete_one_id _ (user_id u) Hwc) as (n & c' & -> & Hgone & Habs & Hpre & _).
  cbn [fst snd]. rewrite ready_docs in Habs, Hpre.
  split; [reflexivity|]. split; [|split].
  - rewrite get_run by (apply initialize_runs; left; exact Hri).
    cbn [over collection]. now rewrite (find_none_existsb _ _ Hgone).
  - intros Hi. now destruct (Habs Hi).
  - intros Hi. now destruct (Hpre Hi).
Qed.

Lemma delete_then_get_absent_witness :
  fst (delete Examples.alice Examples.with_bob_alice) = Ok tt
  /\ fst (get 1%N (snd (delete Examples.alice Examples.with_bob_alice))) = Ok None.
Proof.
  destruct (delete_then_get_absent Examples.with_bob_alice Examples.alice eq_refl)
    as (H1 & H2 & _).
  split; [exact H1|exact H2].
Defined.

(* ===================================================================== *)
(** ** Lookups that find nothing *)
(* ===================================================================== *)

(** C9. When no stored document satisfies the filter of the lookup, each of
    [get], [get_by_email] and [get_by_oauth_account] returns [None]; none
    of them raises. *)
Theorem lookups_return_none {UD : Type} `{UserModel UD}
  (self : MongoDBUserDatabase) :
  wf_store self = true ->
  (forall id,
     existsb (matches String.eqb [("id", VUuid id)]) (docs (collection self)) = false ->
     fst (get id self) = Ok (@None UD))
  /\ (forall email,
        existsb (matches (collation_eqb (email_collation self)) [("email", VStr email)])
          (docs (collection self)) = false ->
        fst (get_by_email email self) = Ok (@None UD))
  /\ (forall oauth account_id,
        existsb (matches String.eqb [("oauth_accounts.oauth_name", VStr oauth);
                                     ("oauth_accounts.account_id", VStr account_id)])
          (docs (collection self)) = false ->
        fst (get_by_oauth_account oauth account_id self) = Ok (@None UD)).
Proof.
  intros Hw.
  assert (Hi : _initialize self = (Ok tt, ready self))
    by (apply initialize_runs; now right).
  repeat split.
  - intros id Hn. now rewrite (get_run _ _ Hi), (find_none_existsb _ _ Hn).
  - intros email Hn. now rewrite (get_by_email_run _ _ Hi), (find_none_existsb _ _ Hn).
  - intros oauth account_id Hn.
    now rewrite (get_by_oauth_account_run _ _ _ Hi), (find_none_existsb _ _ Hn).
Qed.

Lemma lookups_return_none_witness :
  fst (get 7%N Examples.with_bob_alice) = Ok (@None AppUser.User)
  /\ fst (get_by_email "carol@b.com" Examples.with_bob_alice) = Ok (@None AppUser.User)
  /\ fst (get_by_oauth_account "gitlab" "1" Examples.with_bob_alice)
     = Ok (@None AppUser.User).
Proof.
  destruct (lookups_return_none (UD := AppUser.User) Examples.with_bob_alice eq_refl)
    as (H1 & H2 & H3).
  split; [apply H1; reflexivity|].
  split; [apply H2; reflexivity|apply H3; reflexivity].
Defined.

(* ===================================================================== *)
(** ** Lookup by OAuth account *)
(* ===================================================================== *)

(** What the filter of [get_by_oauth_account] asks of the document of a
    user of the application model: some account of the provider, and some
    account with the id, each found on its own. *)
Lemma oauth_filter_on_user (u : AppUser.User) (oid : value) (p a : string) :
  matches String.eqb [("oauth_accounts.oauth_name", VStr p);
                      ("oauth_accounts.account_id", VStr a)]
    (("_id", oid) :: dict u)
  = existsb (fun x => String.eqb (AppUser.oauth_name x) p) (AppUser.oauth_accounts u)
    && existsb (fun x => String.eqb (AppUser.account_id x) a) (AppUser.oauth_accounts u).
Proof.
  destruct u as [i e h ac s f l]. unfold matches. cbn. rewrite andb_true_r.
  f_equal.
  - induction l as [|x l IH]; cbn; [reflexivity|].
    unfold leaf_matches at 1. cbn. now rewrite orb_false_r, IH.
  - induction l as [|x l IH]; cbn; [reflexivity|].
    unfold leaf_matches at 1. cbn. now rewrite orb_false_r, IH.
Qed.

(** The same document holds the pair when one account has both. *)
Lemma has_account_on_user (u : AppUser.User) (oid : value) (p a : string) :
  has_account p a (("_id", oid) :: dict u)
  = existsb (fun x => String.eqb (AppUser.oauth_name x) p
                      && String.eqb (AppUser.account_id x) a)
      (AppUser.oauth_accounts u).
Proof.
  destruct u as [i e h ac s f l]. unfold has_account, doc_accounts. cbn.
  induction l as [|x l IH]; cbn; [reflexivity|]. now rewrite IH.
Qed.

(** C1, the code at the failing input: Alice holds [(google, 1)] and
    [(github, 2)]; no stored document holds the pair [(google, 2)], and
    [get_by_oauth_account "google" "2"] returns Alice. *)
Theorem get_by_oauth_account_mixes_elements :
  existsb (has_account "google" "2") (docs (collection Examples.with_alice)) = false
  /\ fst (get_by_oauth_account "google" "2" Examples.with_alice)
     = Ok (Some Examples.alice).
Proof. split; reflexivity. Qed.

(* ===================================================================== *)
(** ** The calls of the public operations *)
(* ===================================================================== *)

Lemma grows_ret {A : Type} (a : A) : grows (ret a).
Proof. intros self. exists []. cbn. now rewrite app_nil_r. Qed.

Lemma grows_raise {A : Type} (e : error) : grows (@raise A e).
Proof. intros self. exists []. cbn. now rewrite app_nil_r. Qed.

Lemma grows_read {A : Type} (attr : MongoDBUserDatabase -> A) : grows (read attr).
Proof. intros self. exists []. cbn. now rewrite app_nil_r. Qed.

Lemma grows_set_initialized (b : bool) : grows (set_initialized b).
Proof. intros self. exists []. cbn. now rewrite app_nil_r. Qed.

Lemma grows_await {A : Type} (op : Collection -> result A * Collection) (k : call) :
  (forall c, calls (snd (op c)) = calls c ++ [k]) -> grows (await op).
Proof.
  intros Hop self. exists [k]. unfold await. specialize (Hop (collection self)).
  destruct (op (collection self)) as [r c]. exact Hop.
Qed.

Lemma grows_bind {A B : Type} (m : M A) (f : A -> M B) :
  grows m -> (forall a, grows (f a)) -> grows (bind m f).
Proof.
  intros Hm Hf self. unfold bind. destruct (Hm self) as [l Hl].
  destruct (m self) as [[a|e] s]; cbn [snd] in *.
  - destruct (Hf a s) as [l' Hl']. exists (l ++ l').
    now rewrite Hl', Hl, app_assoc.
  - now exists l.
Qed.

Lemma starts_bind {A B : Type} (k : call) (m : M A) (f : A -> M B)
  (self : MongoDBUserDatabase) :
  starts_with k m self -> (forall a, grows (f a)) -> starts_with k (bind m f) self.
Proof.
  intros [l Hl] Hf. unfold starts_with, bind.
  destruct (m self) as [[a|e] s]; cbn [snd] in *.
  - destruct (Hf a s) as [l' Hl']. exists (l ++ l').
    now rewrite Hl', Hl, <- app_assoc.
  - now exists l.
Qed.

(** On a store that is not initialized, the first call of lazy
    initialization is the creation of the [id] index. *)
Lemma initialize_starts (self : MongoDBUserDatabase) :
  initialized self = false ->
  starts_with (CreateIndex "id" true None) _initialize self.
Proof.
  intros Hi.
  assert (Hu : _initialize self
               = (await (create_index "id" true None) ;;
                  await (create_index "email" true None) ;;
                  set_initialized true) self).
  { unfold _initialize. unfold bind at 1. unfold read. now rewrite Hi. }
  unfold starts_with. rewrite Hu.
  apply (starts_bind (CreateIndex "id" true None)
           (await (create_index "id" true None))
           (fun _ => await (create_index "email" true None) ;; set_initialized true)).
  - exists []. unfold await.
    assert (Hc := create_index_calls "id" true None (collection self)).
    destruct (create_index "id" true None (collection self)) as [r c]. exact Hc.
  - intros _. apply grows_bind; [|intros _; apply grows_set_initialized].
    now apply (grows_await _ (CreateIndex "email" true None)), create_index_calls.
Qed.

Lemma snd_bind_ret {A B : Type} (m : M A) (g : A -> B) (self : MongoDBUserDatabase) :
  snd ((x <- m ;; ret (g x)) self) = snd (m self).
Proof. unfold bind, ret. now destruct (m self) as [[a|e] s]. Qed.

Lemma snd_after {A B : Type} (r : result A * Collection) (b : B)
  (self : MongoDBUserDatabase) :
  snd (match r with
       | (Ok _, c) => (Ok b, over c self)
       | (Raise e, c) => (Raise e, over c self)
       end) = over (snd r) self.
Proof. now destruct r as [[a|e] c]. Qed.

Lemma insert_one_indexes (d : document) (c : Collection) :
  indexes (snd (insert_one d c)) = indexes c.
Proof.
  unfold insert_one. destruct (has_field "_id" d);
    destruct (violated _ _ _); reflexivity.
Qed.

Lemma replace_one_indexes (q : query) (d : document) (c : Collection) :
  indexes (snd (replace_one q d c)) = indexes c.
Proof.
  unfold replace_one. destruct (split_first _ _) as [[[b old] a]|]; [|reflexivity].
  destruct (get_field "_id" d) as [v|].
  - destruct (value_eqb _ _ _); [|reflexivity]. destruct (violated _ _ _); reflexivity.
  - destruct (violated _ _ _); reflexivity.
Qed.

Lemma delete_one_indexes (q : query) (c : Collection) :
  indexes (snd (delete_one q c)) = indexes c.
Proof.
  unfold delete_one. destruct (split_first _ _) as [[[b old] a]|]; reflexivity.
Qed.

Section Calls.

Context {UD : Type} `{UserModel UD}.

Lemma snd_model_or_none (user : option document) (self : MongoDBUserDatabase) :
  snd (model_or_none user self) = self.
Proof.
  unfold model_or_none. destruct user as [[|f fs]|]; try reflexivity.
  destruct (user_db_model (f :: fs)); reflexivity.
Qed.

Lemma grows_model_or_none (user : option document) : grows (model_or_none user).
Proof.
  intros self. exists []. now rewrite snd_model_or_none, app_nil_r.
Qed.

Lemma perform_starts (self : MongoDBUserDatabase) (o : operation) :
  initialized self = false ->
  starts_with (CreateIndex "id" true None) (perform o) self.
Proof.
  intros Hi. assert (Hs := initialize_starts self Hi).
  destruct o; unfold perform;
    (apply starts_bind; [|intros; apply grows_ret]);
    unfold get, get_by_email, get_by_oauth_account, create, update, delete;
    (apply starts_bind; [exact Hs|intros _]).
  - apply grows_bind; [|intros; apply grows_model_or_none].
    now apply (grows_await _ (FindOne [("id", VUuid id)] None)).
  - apply grows_bind; [apply grows_read|intros c].
    apply grows_bind; [|intros; apply grows_model_or_none].
    now apply (grows_await _ (FindOne [("email", VStr email)] (Some c))).
  - apply grows_bind; [|intros; apply grows_model_or_none].
    now apply (grows_await _
                 (FindOne [("oauth_accounts.oauth_name", VStr oauth);
                           ("oauth_accounts.account_id", VStr account_id)] None)).
  - apply grows_bind; [|intros; apply grows_ret].
    apply (grows_await _ (InsertOne (dict user))), insert_one_calls.
  - apply grows_bind; [|intros; apply grows_ret].
    apply (grows_await _ (ReplaceOne [("id", VUuid (user_id user))] (dict user))),
      replace_one_calls.
  - apply grows_bind; [|intros; apply grows_ret].
    apply (grows_await _ (DeleteOne [("id", VUuid (user_id user))])), delete_one_calls.
Qed.

(** Once lazy initialization goes through, an operation issues its one
    call and leaves the flag and the indexes as initialization left them. *)
Lemma perform_calls (self : MongoDBUserDatabase) (o : operation) :
  _initialize self = (Ok tt, ready self) ->
  calls (collection (snd (perform o self)))
  = calls (collection (ready self)) ++ [call_of self o]
  /\ initialized (snd (perform o self)) = initialized (ready self)
  /\ indexes (collection (snd (perform o self))) = indexes (collection (ready self)).
Proof.
  intros Hi. destruct o; unfold perform; rewrite ?snd_bind_ret.
  - rewrite (get_run _ _ Hi), snd_model_or_none. now cbn.
  - rewrite (get_by_email_run _ _ Hi), snd_model_or_none. now cbn.
  - rewrite (get_by_oauth_account_run _ _ _ Hi), snd_model_or_none. now cbn.
  - rewrite (create_run _ _ Hi), snd_after. cbn [over collection initialized].
    now rewrite insert_one_calls, insert_one_indexes.
  - rewrite (update_run _ _ Hi), snd_after. cbn [over collection initialized].
    now rewrite replace_one_calls, replace_one_indexes.
  - rewrite (delete_run _ _ Hi), snd_after.
    cbn [over collection initialized].
    now rewrite delete_one_calls, delete_one_indexes.
Qed.

Lemma call_of_not_index (self : MongoDBUserDatabase) (o : operation) :
  is_create_index (call_of self o) = false.
Proof. now destruct o. Qed.

(** An operation on an initialized store creates no index. *)
Lemma perform_initialized (self : MongoDBUserDatabase) (o : operation) :
  initialized self = true ->
  initialized (snd (perform o self)) = true
  /\ index_calls (collection (snd (perform o self))) = index_calls (collection self)
  /\ indexes (collection (snd (perform o self))) = indexes (collection self).
Proof.
  intros Hi.
  destruct (perform_calls self o) as (Hc & Hf & Hx);
    [apply initialize_runs; now left|].
  assert (Hr : ready self = self) by (unfold ready; now rewrite Hi).
  rewrite Hr in *. repeat split; [congruence| |exact Hx].
  unfold index_calls. rewrite Hc, filter_app. cbn [filter].
  now rewrite call_of_not_index, app_nil_r.
Qed.

Lemma perform_all_initialized (ops : list operation) (self : MongoDBUserDatabase) :
  initialized self = true ->
  initialized (perform_all ops self) = true
  /\ index_calls (collection (perform_all ops self)) = index_calls (collection self)
  /\ indexes (collection (perform_all ops self)) = indexes (collection self).
Proof.
  revert self. induction ops as [|o ops IH]; intros self Hi; [now cbn|].
  destruct (perform_initialized self o Hi) as (H1 & H2 & H3).
  destruct (IH _ H1) as (H4 & H5 & H6).
  change (perform_all (o :: ops) self) with (perform_all ops (snd (perform o self))).
  repeat split; congruence.
Qed.

End Calls.

(* ===================================================================== *)
(** ** Well-formed stores stay well-formed *)
(* ===================================================================== *)

Lemma user_shaped_mono (n n' : N) (d : document) :
  (n <= n')%N -> user_shaped n d = true -> user_shaped n' d = true.
Proof.
  intros Hle Hs. destruct (user_shaped_inv _ _ Hs) as (o & i & e & Ho & Hlt & Hi & He).
  unfold user_shaped. rewrite Ho, Hi, He. apply N.ltb_lt. lia.
Qed.

Lemma wf_docs_inv (next : N) (ds : list document) :
  wf_docs next ds = true ->
  forallb (user_shaped next) ds = true
  /\ forall ix, ix = ix__id \/ ix = ix_id \/ ix = ix_email ->
                has_duplicates ix ds = false.
Proof.
  unfold wf_docs. rewrite !andb_true_iff, !negb_true_iff.
  intros (((Hs & H1) & H2) & H3). split; [exact Hs|].
  now intros ix [->|[->| ->]].
Qed.

Lemma wf_docs_intro (next : N) (ds : list document) :
  forallb (user_shaped next) ds = true ->
  (forall ix, ix = ix__id \/ ix = ix_id \/ ix = ix_email ->
              has_duplicates ix ds = false) ->
  wf_docs next ds = true.
Proof.
  intros Hs Hd. unfold wf_docs.
  rewrite Hs, !Hd by auto. reflexivity.
Qed.

Lemma wf_docs_mono (n n' : N) (ds : list document) :
  (n <= n')%N -> wf_docs n ds = true -> wf_docs n' ds = true.
Proof.
  intros Hle Hw. destruct (wf_docs_inv _ _ Hw) as [Hs Hd].
  apply wf_docs_intro; [|exact Hd].
  rewrite forallb_forall in *. intros d Hin.
  now apply (user_shaped_mono n), Hs.
Qed.

Lemma has_duplicates_remove (ix : index) (b a : list document) (m : document) :
  has_duplicates ix (b ++ m :: a) = false -> has_duplicates ix (b ++ a) = false.
Proof.
  induction b as [|x b IH]; simpl; intros Hd.
  - now apply orb_false_iff in Hd as [_ Hd].
  - apply orb_false_iff in Hd as [Hx Hd]. rewrite (IH Hd), orb_false_r.
    unfold collides in *. rewrite existsb_app in *.
    apply orb_false_iff in Hx as [Hb Ha]. simpl in Ha.
    apply orb_false_iff in Ha as [_ Ha]. now rewrite Hb, Ha.
Qed.

Lemma has_duplicates_put (ix : index) (b a : list document) (m : document) :
  (forall x, In x b ->
     key_eqb ix (index_key ix m) (index_key ix x)
     = key_eqb ix (index_key ix x) (index_key ix m)) ->
  has_duplicates ix (b ++ a) = false ->
  collides ix m (b ++ a) = false ->
  has_duplicates ix (b ++ m :: a) = false.
Proof.
  induction b as [|x b IH]; simpl; intros Hsym Hd Hc.
  - now rewrite Hc, Hd.
  - apply orb_false_iff in Hd as [Hx Hd].
    apply orb_false_iff in Hc as [Hxm Hc].
    rewrite IH; [|intros y Hy; apply Hsym; now right|exact Hd|exact Hc].
    rewrite orb_false_r. unfold collides in *. rewrite existsb_app in *.
    apply orb_false_iff in Hx as [Hb Ha]. rewrite Hb. simpl.
    rewrite Ha, orb_false_r. rewrite (Hsym x) by now left. exact Hxm.
Qed.

Lemma wf_docs_remove (next : N) (b a : list document) (m : document) :
  wf_docs next (b ++ m :: a) = true -> wf_docs next (b ++ a) = true.
Proof.
  intros Hw. destruct (wf_docs_inv _ _ Hw) as [Hs Hd].
  apply wf_docs_intro.
  - rewrite forallb_app in *. simpl in Hs.
    apply andb_true_iff in Hs as [Hb Ha]. apply andb_true_iff in Ha as [_ Ha].
    now rewrite Hb, Ha.
  - intros ix Hix. apply (has_duplicates_remove ix b a m). now apply Hd.
Qed.

Lemma wf_docs_put (next : N) (b a : list document) (m : document) :
  wf_docs next (b ++ a) = true ->
  user_shaped next m = true ->
  (forall ix, ix = ix__id \/ ix = ix_id \/ ix = ix_email ->
              collides ix m (b ++ a) = false) ->
  wf_docs next (b ++ m :: a) = true.
Proof.
  intros Hw Hm Hc. destruct (wf_docs_inv _ _ Hw) as [Hs Hd].
  rewrite forallb_app in Hs. apply andb_true_iff in Hs as [Hb Ha].
  apply wf_docs_intro.
  - rewrite forallb_app. simpl. now rewrite Hb, Hm, Ha.
  - intros ix Hix. apply has_duplicates_put; auto.
    intros x Hx. rewrite forallb_forall in Hb.
    now apply (key_eqb_sym_shaped next next); [|exact Hm|apply Hb].
Qed.

Lemma split_first_inv (p : document -> bool) (ds b a : list document) (m : document) :
  split_first p ds = Some (b, m, a) -> ds = b ++ m :: a.
Proof.
  revert b. induction ds as [|d ds IH]; simpl; intros b Hs; [discriminate|].
  destruct (p d).
  - now inversion Hs.
  - destruct (split_first p ds) as [[[b' m'] a']|]; [|discriminate].
    inversion Hs; subst. simpl. f_equal. now apply IH.
Qed.

(** No document collides with [d] in the three indexes when the unique
    indexes of a well-formed, enforced collection let [d] in. *)
Lemma violated_none (c : Collection) (d : document) (ds : list document) :
  enforced c = true ->
  violated (unique_indexes c) d ds = None ->
  forall ix, ix = ix__id \/ ix = ix_id \/ ix = ix_email -> collides ix d ds = false.
Proof.
  intros Hen Hv ix Hix. destruct (enforced_In _ Hen) as [Hi He].
  apply (find_none _ _ Hv). destruct Hix as [->|[->| ->]]; auto. now left.
Qed.

Lemma wf_collection_of_docs (c : Collection) (next : N) (ds : list document)
  (ks : list call) :
  wf_collection c = true -> wf_docs next ds = true ->
  wf_collection (mkCollection ds (indexes c) next ks) = true.
Proof.
  intros Hw Hd. unfold wf_collection in *. cbn [docs indexes next_oid].
  apply andb_true_iff in Hw as [_ Hix]. now rewrite Hd, Hix.
Qed.

Lemma wf_collection_docs (c : Collection) :
  wf_collection c = true -> wf_docs (next_oid c) (docs c) = true.
Proof. unfold wf_collection. intros Hw. now apply andb_true_iff in Hw. Qed.

Lemma insert_one_wf (c : Collection) (d : document) (i : uuid) (e : string) :
  wf_collection c = true -> enforced c = true ->
  get_field "_id" d = None -> doc_id d = Some i -> doc_email d = Some e ->
  wf_collection (snd (insert_one d c)) = true.
Proof.
  intros Hw Hen Hoid Hi He. assert (Hd := wf_collection_docs _ Hw).
  unfold insert_one, has_field. rewrite Hoid. cbn [log docs indexes next_oid calls].
  change (unique_indexes (mkCollection (docs c) (indexes c) (next_oid c)
                            (calls c ++ [InsertOne d])))
    with (unique_indexes c).
  assert (Hd' : wf_docs (N.succ (next_oid c)) (docs c) = true)
    by (apply (wf_docs_mono (next_oid c)); [lia|exact Hd]).
  destruct (violated _ _ _) eqn:Hv; cbn [snd].
  - now apply wf_collection_of_docs.
  - apply wf_collection_of_docs; [exact Hw|].
    apply wf_docs_put; rewrite ?app_nil_r; [exact Hd'| |].
    + unfold user_shaped, doc_oid. cbn [get_field String.eqb Ascii.eqb Bool.eqb].
      change (doc_id (("_id", VObjectId (next_oid c)) :: d)) with (doc_id d).
      change (doc_email (("_id", VObjectId (next_oid c)) :: d)) with (doc_email d).
      rewrite Hi, He. apply N.ltb_lt. lia.
    + now apply (violated_none c).
Qed.

Lemma replace_one_wf (c : Collection) (q : query) (d : document)
  (i : uuid) (e : string) :
  wf_collection c = true -> enforced c = true ->
  get_field "_id" d = None -> doc_id d = Some i -> doc_email d = Some e ->
  wf_collection (snd (replace_one q d c)) = true.
Proof.
  intros Hw Hen Hoid Hi He. assert (Hd := wf_collection_docs _ Hw).
  unfold replace_one. cbn [log docs indexes next_oid calls].
  destruct (split_first _ _) as [[[b old] a]|] eqn:Hsp; [|exact Hw].
  apply split_first_inv in Hsp. rewrite Hoid.
  change (unique_indexes (log (ReplaceOne q d) c)) with (unique_indexes c).
  destruct (violated _ _ _) eqn:Hv; cbn [snd]; [exact Hw|].
  apply wf_collection_of_docs; [exact Hw|].
  rewrite Hsp in Hd. apply wf_docs_put.
  - now apply wf_docs_remove in Hd.
  - destruct (wf_docs_inv _ _ Hd) as [Hs _]. rewrite forallb_app in Hs.
    apply andb_true_iff in Hs as [_ Hs]. simpl in Hs.
    apply andb_true_iff in Hs as [Hold _].
    destruct (user_shaped_inv _ _ Hold) as (o & _ & _ & Ho & Hlt & _).
    unfold user_shaped, doc_oid, index_key. cbn [ix_key ix__id].
    rewrite (doc_oid_field _ _ Ho). cbn [get_field String.eqb Ascii.eqb Bool.eqb].
    change (doc_id (("_id", VObjectId o) :: d)) with (doc_id d).
    change (doc_email (("_id", VObjectId o) :: d)) with (doc_email d).
    rewrite Hi, He. now apply N.ltb_lt.
  - now apply (violated_none c).
Qed.

Lemma delete_one_wf (c : Collection) (q : query) :
  wf_collection c = true -> wf_collection (snd (delete_one q c)) = true.
Proof.
  intros Hw. assert (Hd := wf_collection_docs _ Hw).
  unfold delete_one. cbn [log docs indexes next_oid calls].
  destruct (split_first _ _) as [[[b old] a]|] eqn:Hsp; [|exact Hw].
  apply split_first_inv in Hsp. cbn [snd].
  apply wf_collection_of_docs; [exact Hw|].
  rewrite Hsp in Hd. now apply wf_docs_remove in Hd.
Qed.

Lemma wf_store_over (c : Collection) (self : MongoDBUserDatabase) :
  wf_collection c = true -> indexes c = indexes (collection self) ->
  wf_store self = true -> wf_store (over c self) = true.
Proof.
  unfold wf_store, over, enforced. cbn [collection initialized].
  intros Hc Hix Hw. apply andb_true_iff in Hw as [_ He]. now rewrite Hc, Hix.
Qed.

Lemma wf_store_ready (self : MongoDBUserDatabase) :
  wf_store self = true -> wf_store (ready self) = true.
Proof.
  intros Hw. destruct (ready_wf _ Hw) as (Hi & Hc & He).
  unfold wf_store. now rewrite Hc, Hi, He.
Qed.

(** A store over a collection of users is well-formed when it is built. *)
Lemma wf_store_init (c : Collection) (col : option Collation) :
  wf_collection c = true -> wf_store (__init__ c col) = true.
Proof.
  intros Hw. unfold wf_store. cbn [__init__ collection initialized].
  now rewrite Hw.
Qed.

Section Invariant.

Context {UD : Type} `{UserModel UD}.

(** Every operation that writes valid users leaves the store well-formed,
    whatever it returns. *)
Lemma wf_store_perform (self : MongoDBUserDatabase) (o : operation) :
  wf_store self = true -> writes_valid o ->
  wf_store (snd (perform o self)) = true.
Proof.
  intros Hw Hv.
  assert (Hi : _initialize self = (Ok tt, ready self))
    by (apply initialize_runs; now right).
  assert (Hr := wf_store_ready _ Hw).
  destruct (ready_wf _ Hw) as (_ & Hc & He).
  destruct o; unfold perform; rewrite ?snd_bind_ret.
  - rewrite (get_run _ _ Hi), snd_model_or_none. now apply wf_store_over.
  - rewrite (get_by_email_run _ _ Hi), snd_model_or_none. now apply wf_store_over.
  - rewrite (get_by_oauth_account_run _ _ _ Hi), snd_model_or_none.
    now apply wf_store_over.
  - rewrite (create_run _ _ Hi), snd_after.
    destruct Hv as (Hv1 & Hv2 & (e & Hv3) & _).
    apply wf_store_over; [|apply insert_one_indexes|exact Hr].
    now apply (insert_one_wf _ _ (user_id user) e).
  - rewrite (update_run _ _ Hi), snd_after.
    destruct Hv as (Hv1 & Hv2 & (e & Hv3) & _).
    apply wf_store_over; [|apply replace_one_indexes|exact Hr].
    now apply (replace_one_wf _ _ _ (user_id user) e).
  - rewrite (delete_run _ _ Hi), snd_after.
    apply wf_store_over; [|apply delete_one_indexes|exact Hr].
    now apply delete_one_wf.
Qed.

(** So is every store reached from a well-formed one. *)
Lemma wf_store_perform_all (ops : list operation) (self : MongoDBUserDatabase) :
  wf_store self = true -> Forall writes_valid ops ->
  wf_store (perform_all ops self) = true.
Proof.
  revert self. induction ops as [|o ops IH]; intros self Hw Hv; [exact Hw|].
  inversion Hv; subst.
  change (perform_all (o :: ops) self) with (perform_all ops (snd (perform o self))).
  apply IH; [now apply wf_store_perform|assumption].
Qed.

End Invariant.

(** A store that is not initialized and whose lazy initialization raises
    is still not initialized. *)
Lemma initialize_raise_flag (self : MongoDBUserDatabase) (e : error) :
  initialized self = false -> fst (_initialize self) = Raise e ->
  initialized (snd (_initialize self)) = false.
Proof.
  intros Hi.
  assert (Hu : _initialize self
               = (await (create_index "id" true None) ;;
                  await (create_index "email" true None) ;;
                  set_initialized true) self).
  { unfold _initialize. unfold bind at 1. unfold read. now rewrite Hi. }
  rewrite Hu. unfold bind, await, set_initialized.
  destruct (create_index "id" true None (collection self)) as [[n1|e1] c1];
    cbn [fst snd collection initialized email_collation]; [|intros _; exact Hi].
  destruct (create_index "email" true None c1) as [[n2|e2] c2];
    cbn [fst snd collection initialized]; [discriminate|intros _; exact Hi].
Qed.

Section Reissue.

Context {UD : Type} `{UserModel UD}.

(** An operation whose lazy initialization raises leaves the store as
    the initialization left it. *)
Lemma perform_after_raise (self : MongoDBUserDatabase) (o : operation) (e : error) :
  fst (_initialize self) = Raise e ->
  snd (perform o self) = snd (_initialize self).
Proof.
  intros Hi.
  destruct o; unfold perform, get, get_by_email, get_by_oauth_account,
    create, update, delete, bind;
    destruct (_initialize self) as [[[]|e'] s1]; cbn [fst snd] in *;
    try discriminate; reflexivity.
Qed.

End Reissue.

(** C4, the claim as stated fails: over a collection in which two
    documents share an email, the creation of the [email] index raises, the
    flag stays false, and a fresh store that runs [get] twice has issued
    each index creation twice. *)
Lemma lazy_initialization_reissued :
  index_calls (collection (__init__ Examples.twice_bob None)) = []
  /\ index_calls
       (collection
          (perform_all (UD := AppUser.User) [OpGet 2%N; OpGet 2%N]
             (__init__ Examples.twice_bob None)))
     = [CreateIndex "id" true None; CreateIndex "email" true None;
        CreateIndex "id" true None; CreateIndex "email" true None]
  /\ initialized
       (perform_all (UD := AppUser.User) [OpGet 2%N; OpGet 2%N]
          (__init__ Examples.twice_bob None))
     = false.
Proof. repeat split; reflexivity. Qed.

(** C4, amended. Every public operation starts with lazy initialization:
    on a store that is not initialized its first call creates the [id]
    index; on an initialized store it creates no index and the flag stays
    set.  The calls are issued once per initialization that returns: a
    fresh store whose lazy initialization returns, as it does over every
    collection of users, has issued exactly two index creations after one
    operation or more, both unique and without collation, on [id] and on
    [email], however many operations follow.  When lazy initialization
    raises, the flag stays false and the next operation issues the
    creations again. *)
Theorem lazy_initialization_once {UD : Type} `{UserModel UD} :
  (forall (self : MongoDBUserDatabase) (o : operation),
     initialized self = false ->
     exists rest,
       calls (collection (snd (perform o self)))
       = calls (collection self) ++ CreateIndex "id" true None :: rest)
  /\ (forall (self : MongoDBUserDatabase) (o : operation),
        initialized self = true ->
        initialized (snd (perform o self)) = true
        /\ index_calls (collection (snd (perform o self)))
           = index_calls (collection self))
  /\ (forall (c : Collection) (col : option Collation),
        wf_collection c = true -> fst (_initialize (__init__ c col)) = Ok tt)
  /\ (forall (c : Collection) (col : option Collation)
             (o : operation) (ops : list operation),
        fst (_initialize (__init__ c col)) = Ok tt ->
        initialized (perform_all (o :: ops) (__init__ c col)) = true
        /\ index_calls (collection (perform_all (o :: ops) (__init__ c col)))
           = index_calls c
             ++ [CreateIndex "id" true None; CreateIndex "email" true None]
        /\ indexes (collection (perform_all (o :: ops) (__init__ c col)))
           = with_index ix_email (with_index ix_id (indexes c)))
  /\ (forall (self : MongoDBUserDatabase) (o o' : operation) (e : error),
        initialized self = false ->
        fst (_initialize self) = Raise e ->
        initialized (snd (perform o self)) = false
        /\ exists rest,
             calls (collection (snd (perform o' (snd (perform o self)))))
             = calls (collection (snd (perform o self)))
               ++ CreateIndex "id" true None :: rest).
Proof.
  split; [exact perform_starts|]. split; [|split; [|split]].
  - intros self o Hi. now destruct (perform_initialized self o Hi) as (H1 & H2 & _).
  - intros c col Hw. now rewrite (initialize_ok _ (wf_store_init c col Hw)).
  - intros c col o ops Hret.
    set (self := __init__ c col) in *.
    destruct (perform_calls self o (initialize_returns _ Hret)) as (Hc & Hf & Hx).
    rewrite ready_initialized in Hf.
    destruct (perform_all_initialized ops _ Hf) as (H1 & H2 & H3).
    change (perform_all (o :: ops) self) with (perform_all ops (snd (perform o self))).
    rewrite H1, H2, H3, Hx. repeat split.
    unfold index_calls. rewrite Hc, ready_calls, !filter_app.
    cbn [self __init__ collection initialized filter is_create_index].
    now rewrite call_of_not_index, app_nil_r.
  - intros self o o' e Hi Hraise.
    rewrite (perform_after_raise self o e Hraise).
    assert (Hf := initialize_raise_flag self e Hi Hraise).
    split; [exact Hf|]. exact (perform_starts _ o' Hf).
Qed.

Lemma lazy_initialization_once_witness :
  index_calls
    (collection
       (perform_all [OpCreate Examples.alice; OpGet 1%N; OpGet 1%N;
                     OpDelete Examples.alice]
          (__init__ Examples.empty None)))
  = [CreateIndex "id" true None; CreateIndex "email" true None]
  /\ indexes
       (collection
          (perform_all [OpCreate Examples.alice; OpGet 1%N; OpGet 1%N;
                        OpDelete Examples.alice]
             (__init__ Examples.empty None)))
     = [ix_id; ix_email]
  /\ initialized
       (snd (perform (OpGet 2%N) (__init__ Examples.twice_bob None))) = false.
Proof.
  destruct (proj1 (proj2 (proj2 (proj2 lazy_initialization_once))) Examples.empty None
              (OpCreate Examples.alice)
              [OpGet 1%N; OpGet 1%N; OpDelete Examples.alice]
              (proj1 (proj2 (proj2 lazy_initialization_once))
                 Examples.empty None eq_refl))
    as (_ & H2 & H3).
  destruct (proj2 (proj2 (proj2 (proj2 (lazy_initialization_once (UD := AppUser.User)))))
              (__init__ Examples.twice_bob None) (OpGet 2%N) (OpGet 2%N)
              (DuplicateKeyError "email") eq_refl eq_refl)
    as (H4 & _).
  split; [exact H2|]. split; [exact H3|exact H4].
Defined.

(* ===================================================================== *)
(** ** Lazy initialization that fails *)
(* ===================================================================== *)

Lemma create_index_result (key : string) (unique : bool)
  (col : option Collation) (c : Collection) :
  docs (snd (create_index key unique col c)) = docs c
  /\ (forall ix, existsb (index_eqb ix) (indexes c) = true ->
                 existsb (index_eqb ix) (indexes (snd (create_index key unique col c)))
                 = true)
  /\ (forall name, fst (create_index key unique col c) = Ok name ->
                   existsb (index_eqb (mkIndex key unique col))
                     (indexes (snd (create_index key unique col c))) = true).
Proof.
  unfold create_index. cbn [log docs indexes next_oid calls].
  destruct (existsb (index_eqb (mkIndex key unique col)) (indexes c)) eqn:He.
  - cbn. auto.
  - destruct (existsb (same_key key) (indexes c)); cbn [fst snd docs indexes];
      [repeat split; auto; discriminate|].
    destruct (unique && _); cbn [fst snd docs indexes].
    + repeat split; auto. discriminate.
    + repeat split.
      * intros ix Hix. now rewrite existsb_app, Hix.
      * intros _ _. rewrite existsb_app. cbn. now rewrite index_eqb_refl, orb_true_r.
Qed.

(** C10. On a store that is not initialized: when lazy initialization
    raises, the flag is still false, the documents are untouched, and the
    next public operation starts again with the creation of the [id]
    index; when the flag is true afterwards, initialization has returned
    normally, both creations have been issued and both indexes exist. *)
Theorem initialize_failure_keeps_flag {UD : Type} `{UserModel UD}
  (self : MongoDBUserDatabase) :
  initialized self = false ->
  (forall e, fst (_initialize self) = Raise e ->
     initialized (snd (_initialize self)) = false
     /\ docs (collection (snd (_initialize self))) = docs (collection self)
     /\ forall o : operation,
          exists rest,
            calls (collection (snd (perform o (snd (_initialize self)))))
            = calls (collection (snd (_initialize self)))
              ++ CreateIndex "id" true None :: rest)
  /\ (initialized (snd (_initialize self)) = true ->
      fst (_initialize self) = Ok tt
      /\ enforced (collection (snd (_initialize self))) = true
      /\ calls (collection (snd (_initialize self)))
         = calls (collection self)
           ++ [CreateIndex "id" true None; CreateIndex "email" true None]).
Proof.
  intros Hi.
  assert (Hu : _initialize self
               = (await (create_index "id" true None) ;;
                  await (create_index "email" true None) ;;
                  set_initialized true) self).
  { unfold _initialize. unfold bind at 1. unfold read. now rewrite Hi. }
  rewrite Hu. unfold bind, await, set_initialized.
  destruct (create_index_result "id" true None (collection self)) as (Hd1 & Hk1 & Ho1).
  assert (Hc1 := create_index_calls "id" true None (collection self)).
  destruct (create_index "id" true None (collection self)) as [[n1|e1] c1];
    cbn [fst snd] in *.
  - cbn [collection initialized email_collation].
    destruct (create_index_result "email" true None c1) as (Hd2 & Hk2 & Ho2).
    assert (Hc2 := create_index_calls "email" true None c1).
    destruct (create_index "email" true None c1) as [[n2|e2] c2];
      cbn [fst snd collection initialized] in *.
    + split; [discriminate|]. intros _. split; [reflexivity|]. split.
      * unfold enforced. apply andb_true_iff. split.
        -- exact (Hk2 ix_id (Ho1 _ eq_refl)).
        -- exact (Ho2 _ eq_refl).
      * now rewrite Hc2, Hc1, <- app_assoc.
    + split; [|congruence]. intros e _. split; [exact Hi|]. split; [congruence|].
      intros o. now apply perform_starts.
  - cbn [collection initialized]. split; [|congruence].
    intros e _. split; [exact Hi|]. split; [exact Hd1|].
    intros o. now apply perform_starts.
Qed.

Lemma initialize_failure_keeps_flag_witness :
  fst (_initialize (__init__ Examples.twice_bob None))
  = Raise (DuplicateKeyError "email")
  /\ initialized (snd (_initialize (__init__ Examples.twice_bob None))) = false
  /\ exists rest,
       calls (collection
                (snd (perform (OpGet 2%N)
                        (snd (_initialize (__init__ Examples.twice_bob None))))))
       = calls (collection (snd (_initialize (__init__ Examples.twice_bob None))))
         ++ CreateIndex "id" true None :: rest.
Proof.
  split; [reflexivity|].
  destruct (proj1 (initialize_failure_keeps_flag (UD := AppUser.User)
                     (__init__ Examples.twice_bob None) eq_refl)
              (DuplicateKeyError "email") eq_refl)
    as (H1 & _ & H3).
  split; [exact H1|exact (H3 (OpGet 2%N))].
Defined.

(* ===================================================================== *)
(** ** Further properties: what the operations leave alone *)
(* ===================================================================== *)

Lemma stable_ret {A X : Type} (f : MongoDBUserDatabase -> X) (a : A) :
  stable f (ret a).
Proof. intros self. reflexivity. Qed.

Lemma stable_raise {A X : Type} (f : MongoDBUserDatabase -> X) (e : error) :
  stable f (@raise A e).
Proof. intros self. reflexivity. Qed.

Lemma stable_read {A X : Type} (f : MongoDBUserDatabase -> X)
  (attr : MongoDBUserDatabase -> A) : stable f (read attr).
Proof. intros self. reflexivity. Qed.

Lemma stable_bind {A B X : Type} (f : MongoDBUserDatabase -> X)
  (m : M A) (k : A -> M B) :
  stable f m -> (forall a, stable f (k a)) -> stable f (bind m k).
Proof.
  intros Hm Hk self. unfold bind. specialize (Hm self).
  destruct (m self) as [[a|e] s]; cbn [snd] in *; [|exact Hm].
  now rewrite (Hk a s).
Qed.

Lemma stable_await_collation {A : Type} (op : Collection -> result A * Collection) :
  stable email_collation (await op).
Proof.
  intros self. unfold await. now destruct (op (collection self)).
Qed.

Lemma stable_await_docs {A X : Type} (g : list document -> X)
  (op : Collection -> result A * Collection) :
  (forall c, g (docs (snd (op c))) = g (docs c)) ->
  stable (fun s => g (docs (collection s))) (await op).
Proof.
  intros Hop self. unfold await. specialize (Hop (collection self)).
  now destruct (op (collection self)).
Qed.

Lemma create_index_docs (key : string) (unique : bool)
  (col : option Collation) (c : Collection) :
  docs (snd (create_index key unique col c)) = docs c.
Proof. now destruct (create_index_result key unique col c). Qed.

Lemma initialize_stable_collation : stable email_collation _initialize.
Proof.
  unfold _initialize. apply stable_bind; [apply stable_read|].
  intros [|]; cbn [negb]; [apply stable_ret|].
  apply stable_bind; [apply stable_await_collation|intros _].
  apply stable_bind; [apply stable_await_collation|intros _].
  intros self. reflexivity.
Qed.

Lemma initialize_stable_docs {X : Type} (g : list document -> X) :
  stable (fun s => g (docs (collection s))) _initialize.
Proof.
  unfold _initialize. apply stable_bind; [apply stable_read|].
  intros [|]; cbn [negb]; [apply stable_ret|].
  apply stable_bind;
    [apply stable_await_docs; intros c; now rewrite create_index_docs|intros _].
  apply stable_bind;
    [apply stable_await_docs; intros c; now rewrite create_index_docs|intros _].
  intros self. reflexivity.
Qed.

Lemma insert_one_docs (d : document) (c : Collection) :
  docs (snd (insert_one d c))
  = match fst (insert_one d c) with
    | Ok _ => docs c ++ [stored d c]
    | Raise _ => docs c
    end.
Proof.
  unfold insert_one, stored. cbn [log docs indexes next_oid calls].
  destruct (has_field "_id" d); destruct (violated _ _ _); reflexivity.
Qed.

Lemma replace_one_length (q : query) (d : document) (c : Collection) :
  List.length (docs (snd (replace_one q d c))) = List.length (docs c).
Proof.
  unfold replace_one. cbn [log docs indexes next_oid calls].
  destruct (split_first _ _) as [[[b old] a]|] eqn:Hsp; [|reflexivity].
  apply split_first_inv in Hsp.
  destruct (get_field "_id" d) as [v|].
  - destruct (value_eqb _ _ _); [|reflexivity].
    destruct (violated _ _ _); cbn [snd docs log]; [reflexivity|].
    now rewrite Hsp, !length_app.
  - destruct (violated _ _ _); cbn [snd docs log]; [reflexivity|].
    now rewrite Hsp, !length_app.
Qed.

Lemma delete_one_length (q : query) (c : Collection) :
  List.length (docs (snd (delete_one q c)))
  = match fst (delete_one q c) with
    | Ok n => List.length (docs c) - n
    | Raise _ => List.length (docs c)
    end.
Proof.
  unfold delete_one. cbn [log docs indexes next_oid calls].
  destruct (split_first _ _) as [[[b old] a]|] eqn:Hsp; cbn [fst snd docs].
  - apply split_first_inv in Hsp. rewrite Hsp, !length_app. simpl. lia.
  - cbn [log docs]. lia.
Qed.

Section Frames.

Context {UD : Type} `{UserModel UD}.

Lemma stable_model_or_none {X : Type} (f : MongoDBUserDatabase -> X)
  (user : option document) : stable f (model_or_none user).
Proof. intros self. now rewrite snd_model_or_none. Qed.

Lemma perform_stable_collation (o : operation) : stable email_collation (perform o).
Proof.
  destruct o; unfold perform, get, get_by_email, get_by_oauth_account,
    create, update, delete;
    repeat (first [ apply initialize_stable_collation
                  | apply stable_await_collation
                  | apply stable_model_or_none
                  | apply stable_ret
                  | apply stable_read
                  | apply stable_bind
                  | intro ]).
Qed.

Lemma lookup_stable_docs (q : query) (col : option Collation) :
  stable (fun s => docs (collection s))
    (user <- await (find_one q col) ;; model_or_none user).
Proof.
  apply stable_bind; [|intros; apply stable_model_or_none].
  now apply (stable_await_docs (fun ds => ds)).
Qed.

End Frames.

(** X1. A lookup never writes: whatever the store and whatever it returns
    or raises, [get], [get_by_email] and [get_by_oauth_account] leave the
    stored documents as they were. *)
Theorem lookups_leave_documents {UD : Type} `{UserModel UD}
  (self : MongoDBUserDatabase) :
  (forall id, docs (collection (snd (get id self))) = docs (collection self))
  /\ (forall email,
        docs (collection (snd (get_by_email email self))) = docs (collection self))
  /\ (forall oauth account_id,
        docs (collection (snd (get_by_oauth_account oauth account_id self)))
        = docs (collection self)).
Proof.
  repeat split; intros.
  - apply (stable_bind (fun s => docs (collection s)));
      [apply (initialize_stable_docs (fun ds => ds))|intros _; apply lookup_stable_docs].
  - apply (stable_bind (fun s => docs (collection s)));
      [apply (initialize_stable_docs (fun ds => ds))|intros _].
    apply stable_bind; [apply stable_read|intros c; apply lookup_stable_docs].
  - apply (stable_bind (fun s => docs (collection s)));
      [apply (initialize_stable_docs (fun ds => ds))|intros _; apply lookup_stable_docs].
Qed.

(** X2. The collation of a store is the one it was built with, after any
    operations: the argument of the constructor when there is one, locale
    ["en"] at strength 2 otherwise; no operation changes it. *)
Theorem email_collation_is_fixed {UD : Type} `{UserModel UD}
  (c : Collection) (col : option Collation) (ops : list operation) :
  email_collation (perform_all ops (__init__ c col))
  = match col with
    | Some given => given
    | None => mkCollation "en" (Some 2)
    end.
Proof.
  assert (Hk : forall ops self,
             email_collation (perform_all ops self) = email_collation self).
  { clear ops. induction ops as [|o ops IH]; intros self; [reflexivity|].
    change (perform_all (o :: ops) self) with (perform_all ops (snd (perform o self))).
    now rewrite IH, perform_stable_collation. }
  rewrite Hk. reflexivity.
Qed.

(** X3. No operation but [create] adds a document and none but [delete]
    removes one, on any store: [update] keeps the number of documents,
    [create] adds exactly one when it returns and none when it raises,
    [delete] removes one at most. *)
Theorem document_count {UD : Type} `{UserModel UD}
  (self : MongoDBUserDatabase) (u : UD) :
  List.length (docs (collection (snd (update u self))))
  = List.length (docs (collection self))
  /\ List.length (docs (collection (snd (create u self))))
     = match fst (create u self) with
       | Ok _ => S (List.length (docs (collection self)))
       | Raise _ => List.length (docs (collection self))
       end
  /\ List.length (docs (collection (snd (delete u self))))
     <= List.length (docs (collection self))
  /\ List.length (docs (collection self))
     <= S (List.length (docs (collection (snd (delete u self))))).
Proof.
  assert (Hi := initialize_stable_docs (fun ds => ds) self). cbv beta in Hi.
  split; [|split].
  - unfold update, bind, await, ret.
    destruct (_initialize self) as [[[]|e] s1]; cbn [snd] in *; [|now rewrite Hi].
    assert (Hl := replace_one_length [("id", VUuid (user_id u))] (dict u) (collection s1)).
    destruct (replace_one _ _ (collection s1)) as [[n|e] c1]; cbn [snd collection] in *;
      now rewrite Hl, Hi.
  - unfold create, bind, await, ret.
    destruct (_initialize self) as [[[]|e] s1]; cbn [fst snd] in *; [|now rewrite Hi].
    assert (Hd := insert_one_docs (dict u) (collection s1)).
    destruct (insert_one (dict u) (collection s1)) as [[v|e] c1];
      cbn [fst snd collection] in *; rewrite Hd, ?length_app, Hi; simpl; lia.
  - unfold delete, bind, await, ret.
    destruct (_initialize self) as [[[]|e] s1]; cbn [fst snd] in *;
      [|rewrite Hi; lia].
    assert (Hd := delete_one_length [("id", VUuid (user_id u))] (collection s1)).
    assert (Hn : forall n c', delete_one [("id", VUuid (user_id u))] (collection s1)
                              = (Ok n, c') -> n <= 1).
    { intros n c'. unfold delete_one.
      destruct (split_first _ _) as [[[b old] a]|]; intros Heq; inversion Heq; lia. }
    destruct (delete_one _ (collection s1)) as [[n|e] c1] eqn:Hdel;
      cbn [fst snd collection] in *; rewrite Hd, Hi.
    + specialize (Hn n c1 eq_refl). lia.
    + lia.
Qed.

(* ===================================================================== *)
(** ** Further properties: what a lookup returns *)
(* ===================================================================== *)

Lemma matches_nonempty (streq : string -> string -> bool) (k : string)
  (v : value) (q : query) (d : document) :
  is_null v = false -> matches streq ((k, v) :: q) d = true -> d <> [].
Proof.
  intros Hv Hm ->. unfold matches in Hm. cbn [forallb fst snd] in Hm.
  apply andb_true_iff in Hm as [Hm _].
  destruct (split_path k) as [|k1 [|k2 rest]]; cbn in Hm; congruence.
Qed.

Lemma find_exists {A : Type} (p : A -> bool) (l : list A) :
  existsb p l = true -> exists x, find p l = Some x.
Proof.
  induction l as [|y l IH]; simpl; intros He; [discriminate|].
  destruct (p y); [now exists y|now apply IH].
Qed.

(** A document that holds the pair in one account satisfies the filter of
    [get_by_oauth_account]. *)
Lemma has_account_matches (p a : string) (d : document) :
  has_account p a d = true ->
  matches String.eqb [("oauth_accounts.oauth_name", VStr p);
                      ("oauth_accounts.account_id", VStr a)] d = true.
Proof.
  unfold has_account, doc_accounts. intros Hh.
  destruct (get_field "oauth_accounts" d) as [[| | | | | |vs|]|] eqn:Hf;
    try discriminate Hh.
  apply existsb_exists in Hh as (x & Hx & Hacc).
  destruct x as [| | | | | | |e]; try discriminate Hacc. unfold is_account in Hacc.
  destruct (get_field "oauth_name" e) as [[| | |p'| | | |]|] eqn:Hp;
    try discriminate Hacc.
  destruct (get_field "account_id" e) as [[| | |a'| | | |]|] eqn:Ha;
    try discriminate Hacc.
  apply andb_true_iff in Hacc as [Hpp Haa].
  unfold matches. cbn [forallb fst snd].
  change (split_path "oauth_accounts.oauth_name") with ["oauth_accounts"; "oauth_name"].
  change (split_path "oauth_accounts.account_id") with ["oauth_accounts"; "account_id"].
  cbn [match_path]. rewrite Hf.
  assert (H1 : existsb (fun x => match x with
                                 | VDoc d' =>
                                     match get_field "oauth_name" d' with
                                     | Some v => leaf_matches String.eqb (VStr p) v
                                     | None => is_null (VStr p)
                                     end
                                 | _ => false
                                 end) vs = true).
  { apply existsb_exists. exists (VDoc e). split; [exact Hx|].
    rewrite Hp. unfold leaf_matches. cbn. now rewrite Hpp. }
  assert (H2 : existsb (fun x => match x with
                                 | VDoc d' =>
                                     match get_field "account_id" d' with
                                     | Some v => leaf_matches String.eqb (VStr a) v
                                     | None => is_null (VStr a)
                                     end
                                 | _ => false
                                 end) vs = true).
  { apply existsb_exists. exists (VDoc e). split; [exact Hx|].
    rewrite Ha. unfold leaf_matches. cbn. now rewrite Haa. }
  now rewrite H1, H2.
Qed.

Section Lookups.

Context {UD : Type} `{UserModel UD}.

(** The user a lookup returns is made of a stored document that satisfies
    its filter. *)
Lemma lookup_sound (q : query) (col : option Collation)
  (self : MongoDBUserDatabase) (u : UD) :
  fst ((user <- await (find_one q col) ;; model_or_none user) self) = Ok (Some u) ->
  exists d, In d (docs (collection self))
            /\ matches (streq_of col) q d = true
            /\ user_db_model d = Some u.
Proof.
  unfold bind, await, find_one. cbn [log docs fst snd].
  destruct (find _ (docs (collection self))) as [d|] eqn:Hf; [|discriminate].
  apply find_some in Hf as [Hin Hm].
  unfold model_or_none. destruct d as [|f fs]; [discriminate|].
  destruct (user_db_model (f :: fs)) as [u'|] eqn:Hu; [|discriminate].
  cbn. intros Heq. inversion Heq; subst. now exists (f :: fs).
Qed.

Lemma initialize_then_sound {A : Type} (k : M A) (a : A)
  (self : MongoDBUserDatabase) :
  fst ((_initialize ;; k) self) = Ok a ->
  exists s1, docs (collection s1) = docs (collection self)
             /\ email_collation s1 = email_collation self
             /\ fst (k s1) = Ok a.
Proof.
  unfold bind.
  assert (Hd := initialize_stable_docs (fun ds => ds) self).
  assert (Hc := initialize_stable_collation self). cbv beta in Hd.
  destruct (_initialize self) as [[[]|e] s1]; cbn [fst snd] in *; [|discriminate].
  intros Hk. now exists s1.
Qed.

End Lookups.

(** X4. Whatever the store, a user returned by [get], [get_by_email] or
    [get_by_oauth_account] is what the model makes of a stored document
    that satisfies the filter of the lookup: the id, the email under the
    collation of the store, or both conditions on [oauth_accounts]. *)
Theorem lookups_return_stored_users {UD : Type} `{UserModel UD}
  (self : MongoDBUserDatabase) (u : UD) :
  (forall id, fst (get id self) = Ok (Some u) ->
     exists d, In d (docs (collection self))
               /\ matches String.eqb [("id", VUuid id)] d = true
               /\ user_db_model d = Some u)
  /\ (forall email, fst (get_by_email email self) = Ok (Some u) ->
        exists d, In d (docs (collection self))
                  /\ matches (collation_eqb (email_collation self))
                       [("email", VStr email)] d = true
                  /\ user_db_model d = Some u)
  /\ (forall oauth account_id,
        fst (get_by_oauth_account oauth account_id self) = Ok (Some u) ->
        exists d, In d (docs (collection self))
                  /\ matches String.eqb
                       [("oauth_accounts.oauth_name", VStr oauth);
                        ("oauth_accounts.account_id", VStr account_id)] d = true
                  /\ user_db_model d = Some u).
Proof.
  repeat split.
  - intros id Hg. apply initialize_then_sound in Hg as (s1 & Hd & _ & Hg).
    rewrite <- Hd. exact (lookup_sound _ None _ _ Hg).
  - intros email Hg. apply initialize_then_sound in Hg as (s1 & Hd & Hc & Hg).
    unfold bind at 1 in Hg. unfold read in Hg. cbn [fst snd] in Hg.
    rewrite <- Hd, <- Hc. exact (lookup_sound _ (Some (email_collation s1)) _ _ Hg).
  - intros oauth account_id Hg.
    apply initialize_then_sound in Hg as (s1 & Hd & _ & Hg).
    rewrite <- Hd. exact (lookup_sound _ None _ _ Hg).
Qed.

Lemma lookups_return_stored_users_witness :
  exists d, In d (docs (collection Examples.with_bob_alice))
            /\ matches String.eqb [("id", VUuid 1)] d = true
            /\ user_db_model d = Some Examples.alice.
Proof.
  apply (proj1 (lookups_return_stored_users Examples.with_bob_alice Examples.alice)).
  reflexivity.
Defined.

(** X5. When lazy initialization returns and the first document that
    satisfies the filter is one the model rejects, the lookup raises the
    validation error of the model instead of returning [None]; so for each
    of the three lookups. *)
Theorem lookups_raise_on_rejected_document {UD : Type} `{UserModel UD}
  (self : MongoDBUserDatabase) (f : string * value) (fs : document) :
  fst (_initialize self) = Ok tt ->
  user_db_model (f :: fs) = @None UD ->
  (forall id,
     find (matches String.eqb [("id", VUuid id)]) (docs (collection self))
     = Some (f :: fs) ->
     fst (get id self) = Raise (A := option UD) ValidationError)
  /\ (forall email,
        find (matches (collation_eqb (email_collation self)) [("email", VStr email)])
          (docs (collection self)) = Some (f :: fs) ->
        fst (get_by_email email self) = Raise (A := option UD) ValidationError)
  /\ (forall oauth account_id,
        find (matches String.eqb [("oauth_accounts.oauth_name", VStr oauth);
                                  ("oauth_accounts.account_id", VStr account_id)])
          (docs (collection self)) = Some (f :: fs) ->
        fst (get_by_oauth_account oauth account_id self)
        = Raise (A := option UD) ValidationError).
Proof.
  intros Hi Hu. apply initialize_returns in Hi. repeat split.
  - intros id Hf. rewrite (get_run _ _ Hi), Hf. unfold model_or_none. now rewrite Hu.
  - intros email Hf. rewrite (get_by_email_run _ _ Hi), Hf.
    unfold model_or_none. now rewrite Hu.
  - intros oauth account_id Hf. rewrite (get_by_oauth_account_run _ _ _ Hi), Hf.
    unfold model_or_none. now rewrite Hu.
Qed.

Lemma lookups_raise_on_rejected_document_witness :
  fst (get 9%N (__init__ Examples.with_stranger None))
  = Raise (A := option AppUser.User) ValidationError.
Proof.
  assert (Hi : fst (_initialize (__init__ Examples.with_stranger None)) = Ok tt)
    by reflexivity.
  assert (Hu : user_db_model
                 [("_id", VObjectId 0); ("id", VUuid 9); ("email", VStr "x@y.com")]
               = @None AppUser.User) by reflexivity.
  apply (proj1 (lookups_raise_on_rejected_document
                  (__init__ Examples.with_stranger None)
                  ("_id", VObjectId 0) [("id", VUuid 9); ("email", VStr "x@y.com")]
                  Hi Hu)).
  reflexivity.
Defined.

(** X6. [get_by_oauth_account] never misses a stored pair: when lazy
    initialization returns and some stored document holds [(p, a)] in one
    of its accounts, the lookup does not return [None]. *)
Theorem get_by_oauth_account_finds_stored_pair {UD : Type} `{UserModel UD}
  (self : MongoDBUserDatabase) (p a : string) :
  fst (_initialize self) = Ok tt ->
  existsb (has_account p a) (docs (collection self)) = true ->
  fst (get_by_oauth_account p a self) <> Ok (@None UD).
Proof.
  intros Hi He. apply initialize_returns in Hi.
  rewrite (get_by_oauth_account_run _ _ _ Hi).
  apply existsb_exists in He as (d & Hin & Hd).
  apply has_account_matches in Hd.
  destruct (find_exists (matches String.eqb
                           [("oauth_accounts.oauth_name", VStr p);
                            ("oauth_accounts.account_id", VStr a)])
              (docs (collection self))) as [d' Hf].
  { apply existsb_exists. now exists d. }
  rewrite Hf. apply find_some in Hf as [_ Hm].
  apply matches_nonempty in Hm; [|reflexivity].
  unfold model_or_none. destruct d' as [|f fs]; [congruence|].
  destruct (user_db_model (f :: fs)); cbn; discriminate.
Qed.

Lemma get_by_oauth_account_finds_stored_pair_witness :
  fst (get_by_oauth_account "github" "2" Examples.with_bob_alice)
  <> Ok (@None AppUser.User).
Proof.
  apply (get_by_oauth_account_finds_stored_pair Examples.with_bob_alice
           "github" "2" eq_refl eq_refl).
Defined.

(** X7. Create, then look up by OAuth account: for a valid user [u] with a
    new id and email who holds the pair [(p, a)], [get_by_oauth_account p a]
    after [create u] returns [u], provided no document stored before
    satisfies the filter of the lookup. *)
Theorem create_then_get_by_oauth_account {UD : Type} `{UserModel UD}
  (self : MongoDBUserDatabase) (u : UD) (e p a : string) :
  wf_store self = true -> valid_user u -> doc_email (dict u) = Some e ->
  has_id (user_id u) (docs (collection self)) = false ->
  has_email e (docs (collection self)) = false ->
  has_account p a (dict u) = true ->
  existsb (matches String.eqb [("oauth_accounts.oauth_name", VStr p);
                               ("oauth_accounts.account_id", VStr a)])
    (docs (collection self)) = false ->
  fst (get_by_oauth_account p a (snd (create u self))) = Ok (Some u).
Proof.
  intros Hw Hv He Hi Hm Hacc Hnone.
  rewrite (create_fresh self u e Hw Hv He Hi Hm). cbn [snd].
  rewrite get_by_oauth_account_run
    by (apply initialize_runs; left; now apply created_initialized).
  rewrite created_docs, (find_skip _ _ _ Hnone). cbn [find].
  rewrite (has_account_matches p a
             (("_id", VObjectId (next_oid (collection self))) :: dict u))
    by exact Hacc.
  now rewrite model_or_none_valid.
Qed.

Lemma create_then_get_by_oauth_account_witness :
  fst (get_by_oauth_account "google" "1"
         (snd (create Examples.alice Examples.with_bob)))
  = Ok (Some Examples.alice).
Proof.
  apply (create_then_get_by_oauth_account Examples.with_bob Examples.alice
           "A@B.com" "google" "1");
    [reflexivity|apply app_user_valid|reflexivity|reflexivity|reflexivity
    |reflexivity|reflexivity].
Defined.

(* ===================================================================== *)
(** ** Further properties: how the operations compose *)
(* ===================================================================== *)

Lemma find_drop {A : Type} (p : A -> bool) (b a : list A) (x : A) :
  p x = false -> find p (b ++ x :: a) = find p (b ++ a).
Proof.
  intros Hx. induction b as [|y b IH]; simpl; [now rewrite Hx|].
  now rewrite IH.
Qed.

Lemma find_swap {A : Type} (p : A -> bool) (b a : list A) (x y : A) :
  p x = false -> p y = false -> find p (b ++ x :: a) = find p (b ++ y :: a).
Proof. intros Hx Hy. now rewrite !find_drop. Qed.

Lemma split_first_skip (p : document -> bool) (b a : list document) (m : document) :
  existsb p b = false -> p m = true ->
  split_first p (b ++ m :: a) = Some (b, m, a).
Proof.
  intros Hb Hm. induction b as [|x b IH]; simpl in *; [now rewrite Hm|].
  apply orb_false_iff in Hb as [-> Hb]. now rewrite (IH Hb).
Qed.

Lemma split_first_before (p : document -> bool) (ds b a : list document)
  (m : document) :
  split_first p ds = Some (b, m, a) -> existsb p b = false /\ p m = true.
Proof.
  revert b. induction ds as [|d ds IH]; simpl; intros b Hs; [discriminate|].
  destruct (p d) eqn:Hp.
  - inversion Hs; subst. now split.
  - destruct (split_first p ds) as [[[b' m'] a']|]; [|discriminate].
    inversion Hs; subst. destruct (IH b' eq_refl) as [Hb Hm].
    simpl. now rewrite Hp, Hb.
Qed.

(** What [replace_one] does to the documents, for a replacement without
    [_id]: nothing, or the first match becomes its [_id] and the
    replacement. *)
Lemma replace_one_cases (q : query) (d : document) (c : Collection) :
  get_field "_id" d = None ->
  (docs (snd (replace_one q d c)) = docs c
   /\ (split_first (matches String.eqb q) (docs c) = None
       \/ exists e, fst (replace_one q d c) = Raise e))
  \/ exists b old a,
       split_first (matches String.eqb q) (docs c) = Some (b, old, a)
       /\ fst (replace_one q d c) = Ok 1
       /\ docs (snd (replace_one q d c))
          = b ++ (("_id", index_key ix__id old) :: d) :: a.
Proof.
  intros Hoid. unfold replace_one. cbn [log docs indexes next_oid calls].
  destruct (split_first _ _) as [[[b old] a]|] eqn:Hsp; [|left; split; auto].
  rewrite Hoid. destruct (violated _ _ _) as [ix|].
  - left. split; [reflexivity|]. right. now eexists.
  - right. now exists b, old, a.
Qed.

Lemma delete_one_cases (q : query) (c : Collection) :
  (split_first (matches String.eqb q) (docs c) = None
   /\ docs (snd (delete_one q c)) = docs c)
  \/ exists b old a,
       split_first (matches String.eqb q) (docs c) = Some (b, old, a)
       /\ docs (snd (delete_one q c)) = b ++ a.
Proof.
  unfold delete_one. cbn [log docs indexes next_oid calls].
  destruct (split_first _ _) as [[[b old] a]|] eqn:Hsp; [right|left; split; auto].
  now exists b, old, a.
Qed.

Lemma replace_one_no_match (q : query) (d : document) (c : Collection) :
  split_first (matches String.eqb q) (docs c) = None ->
  replace_one q d c = (Ok 0, log (ReplaceOne q d) c).
Proof.
  intros Hn. unfold replace_one. cbn [log docs]. now rewrite Hn.
Qed.

(** Replacing a document of a well-formed collection by itself, less its
    [_id], goes through and changes no document. *)
Lemma replace_one_same (c : Collection) (q : query) (d : document)
  (b a : list document) (oid : value) :
  wf_collection c = true ->
  docs c = b ++ (("_id", oid) :: d) :: a ->
  existsb (matches String.eqb q) b = false ->
  matches String.eqb q (("_id", oid) :: d) = true ->
  get_field "_id" d = None ->
  fst (replace_one q d c) = Ok 1
  /\ docs (snd (replace_one q d c)) = docs c.
Proof.
  intros Hw Hds Hb Hm Hoid. unfold replace_one. cbn [log docs indexes next_oid calls].
  rewrite Hds, (split_first_skip _ _ _ _ Hb Hm), Hoid.
  change (index_key ix__id (("_id", oid) :: d)) with oid.
  change (unique_indexes (log (ReplaceOne q d) c)) with (unique_indexes c).
  assert (Hnone : violated (unique_indexes c) (("_id", oid) :: d) (b ++ a) = None).
  { apply find_none_all. intros ix Hin.
    apply (wf_others_distinct c); [exact Hw|exact Hds|].
    now apply (unique_indexes_wf c). }
  now rewrite Hnone.
Qed.

Lemma fst_after {A B : Type} (r : result A * Collection) (b : B)
  (self : MongoDBUserDatabase) :
  fst (match r with
       | (Ok _, c) => (Ok b, over c self)
       | (Raise e, c) => (Raise e, over c self)
       end)
  = match fst r with
    | Ok _ => Ok b
    | Raise e => Raise e
    end.
Proof. now destruct r as [[a|e] c]. Qed.

Lemma ready_of_initialized (self : MongoDBUserDatabase) :
  initialized self = true -> ready self = self.
Proof. intros Hi. unfold ready. now rewrite Hi. Qed.

Section Compose.

Context {UD : Type} `{UserModel UD}.

Lemma fst_model_or_none (user : option document) (s s' : MongoDBUserDatabase) :
  fst (model_or_none user s) = fst (model_or_none user s').
Proof.
  unfold model_or_none. destruct user as [[|f fs]|]; try reflexivity.
  destruct (user_db_model (f :: fs)); reflexivity.
Qed.

(** Between two well-formed stores, [get] returns the same when the filter
    finds the same document. *)
Lemma get_same (j : uuid) (s s' : MongoDBUserDatabase) :
  wf_store s = true -> wf_store s' = true ->
  find (matches String.eqb [("id", VUuid j)]) (docs (collection s'))
  = find (matches String.eqb [("id", VUuid j)]) (docs (collection s)) ->
  fst (get j s') = fst (get j s).
Proof.
  intros Hw Hw' Hf.
  rewrite !get_run by (apply initialize_runs; now right).
  rewrite Hf. apply fst_model_or_none.
Qed.

Lemma wf_store_create (self : MongoDBUserDatabase) (u : UD) :
  wf_store self = true -> valid_user u -> wf_store (snd (create u self)) = true.
Proof.
  intros Hw Hv. assert (Hp := wf_store_perform self (OpCreate u) Hw Hv).
  unfold perform in Hp. now rewrite snd_bind_ret in Hp.
Qed.

Lemma wf_store_update (self : MongoDBUserDatabase) (u : UD) :
  wf_store self = true -> valid_user u -> wf_store (snd (update u self)) = true.
Proof.
  intros Hw Hv. assert (Hp := wf_store_perform self (OpUpdate u) Hw Hv).
  unfold perform in Hp. now rewrite snd_bind_ret in Hp.
Qed.

Lemma wf_store_delete (self : MongoDBUserDatabase) (u : UD) :
  wf_store self = true -> wf_store (snd (delete u self)) = true.
Proof.
  intros Hw. assert (Hp := wf_store_perform self (OpDelete u) Hw I).
  unfold perform in Hp. now rewrite snd_bind_ret in Hp.
Qed.

(** A document of a collection of users that the filter of [i] selects
    does not satisfy the filter of another id. *)
Lemma selected_not_other (next : N) (ds b a : list document) (old : document)
  (i j : uuid) :
  forallb (user_shaped next) ds = true ->
  split_first (matches String.eqb [("id", VUuid i)]) ds = Some (b, old, a) ->
  j <> i ->
  matches String.eqb [("id", VUuid j)] old = false.
Proof.
  intros Hs Hsp Hji. destruct (split_first_before _ _ _ _ _ Hsp) as [_ Hm].
  apply split_first_inv in Hsp. rewrite Hsp, forallb_app in Hs.
  apply andb_true_iff in Hs as [_ Hs]. simpl in Hs.
  apply andb_true_iff in Hs as [Hold _].
  destruct (user_shaped_inv _ _ Hold) as (_ & i' & _ & _ & _ & Hi' & _).
  rewrite (matches_id old i i' Hi') in Hm. rewrite (matches_id old j i' Hi').
  apply N.eqb_eq in Hm. subst i'. apply N.eqb_neq. congruence.
Qed.

End Compose.

Section DocsAfter.

Context {UD : Type} `{UserModel UD}.

Lemma docs_after_create (self : MongoDBUserDatabase) (u : UD) :
  wf_store self = true ->
  docs (collection (snd (create u self)))
  = docs (snd (insert_one (dict u) (collection (ready self)))).
Proof.
  intros Hw. rewrite create_run by (apply initialize_runs; now right).
  now rewrite snd_after.
Qed.

Lemma docs_after_update (self : MongoDBUserDatabase) (u : UD) :
  wf_store self = true ->
  docs (collection (snd (update u self)))
  = docs (snd (replace_one [("id", VUuid (user_id u))] (dict u)
                 (collection (ready self)))).
Proof.
  intros Hw. rewrite update_run by (apply initialize_runs; now right).
  now rewrite snd_after.
Qed.

Lemma docs_after_delete (self : MongoDBUserDatabase) (u : UD) :
  wf_store self = true ->
  docs (collection (snd (delete u self)))
  = docs (snd (delete_one [("id", VUuid (user_id u))] (collection (ready self)))).
Proof.
  intros Hw. rewrite delete_run by (apply initialize_runs; now right).
  now rewrite snd_after.
Qed.

Lemma ready_shaped (self : MongoDBUserDatabase) :
  wf_store self = true ->
  forallb (user_shaped (next_oid (collection (ready self))))
    (docs (collection (ready self))) = true.
Proof.
  intros Hw. destruct (ready_wf _ Hw) as (_ & Hc & _).
  now destruct (wf_collection_inv _ Hc).
Qed.

End DocsAfter.

(** X8. The keys stay unique: in every store reached from a fresh store
    over a collection of users by operations that write valid users, no
    two documents share [_id], [id] or [email]. *)
Theorem reachable_stores_keep_keys_unique {UD : Type} `{UserModel UD}
  (c : Collection) (col : option Collation) (ops : list operation) :
  wf_collection c = true -> Forall writes_valid ops ->
  has_duplicates ix__id (docs (collection (perform_all ops (__init__ c col)))) = false
  /\ has_duplicates ix_id (docs (collection (perform_all ops (__init__ c col)))) = false
  /\ has_duplicates ix_email (docs (collection (perform_all ops (__init__ c col))))
     = false.
Proof.
  intros Hw Hv.
  assert (Hs := wf_store_perform_all ops _ (wf_store_init c col Hw) Hv).
  apply andb_true_iff in Hs as [Hc _].
  now destruct (wf_collection_inv _ Hc) as (_ & H1 & H2 & H3 & _).
Qed.

Lemma reachable_stores_keep_keys_unique_witness :
  has_duplicates ix_email
    (docs (collection
             (perform_all [OpCreate Examples.bob; OpCreate Examples.alice;
                           OpUpdate Examples.alice_moved; OpDelete Examples.bob;
                           OpUpdate Examples.alice_moved]
                (__init__ Examples.empty None)))) = false.
Proof.
  apply (reachable_stores_keep_keys_unique Examples.empty None
           [OpCreate Examples.bob; OpCreate Examples.alice;
            OpUpdate Examples.alice_moved; OpDelete Examples.bob;
            OpUpdate Examples.alice_moved]).
  - reflexivity.
  - repeat constructor; apply app_user_valid.
Defined.

(** X9. Writing one user leaves the others alone: over a collection of
    users, [get j] returns the same before and after [create u],
    [update u] or [delete u] whenever [j] is not the id of [u]. *)
Theorem writes_leave_other_ids {UD : Type} `{UserModel UD}
  (self : MongoDBUserDatabase) (u : UD) (j : uuid) :
  wf_store self = true -> j <> user_id u ->
  fst (get j (snd (delete u self))) = fst (get j self)
  /\ (valid_user u ->
      fst (get j (snd (create u self))) = fst (get j self)
      /\ fst (get j (snd (update u self))) = fst (get j self)).
Proof.
  intros Hw Hj. assert (Hs := ready_shaped self Hw).
  assert (Hne : (user_id u =? j)%N = false) by (apply N.eqb_neq; congruence).
  split; [|intros Hv; split].
  - apply get_same; [exact Hw|now apply wf_store_delete|].
    rewrite (docs_after_delete _ _ Hw), <- (ready_docs self).
    destruct (delete_one_cases [("id", VUuid (user_id u))] (collection (ready self)))
      as [[_ ->]|(b & old & a & Hsp & ->)]; [reflexivity|].
    rewrite (split_first_inv _ _ _ _ _ Hsp). symmetry. apply find_drop.
    exact (selected_not_other _ _ _ _ _ _ _ Hs Hsp Hj).
  - apply get_same; [exact Hw|now apply wf_store_create|].
    rewrite (docs_after_create _ _ Hw), insert_one_docs, <- (ready_docs self).
    destruct (fst (insert_one _ _)); [|reflexivity].
    destruct Hv as (Hv1 & Hv2 & _).
    unfold stored, has_field. rewrite Hv1.
    rewrite <- (app_nil_r (docs (collection (ready self)))) at 2.
    apply find_drop. rewrite (matches_id _ j (user_id u)); [exact Hne|exact Hv2].
  - apply get_same; [exact Hw|now apply wf_store_update|].
    rewrite (docs_after_update _ _ Hw), <- (ready_docs self).
    destruct Hv as (Hv1 & Hv2 & _).
    destruct (replace_one_cases [("id", VUuid (user_id u))] (dict u)
                (collection (ready self)) Hv1)
      as [[-> _]|(b & old & a & Hsp & _ & ->)]; [reflexivity|].
    rewrite (split_first_inv _ _ _ _ _ Hsp). apply find_swap.
    + rewrite (matches_id _ j (user_id u)); [exact Hne|exact Hv2].
    + exact (selected_not_other _ _ _ _ _ _ _ Hs Hsp Hj).
Qed.

Lemma writes_leave_other_ids_witness :
  fst (get 2%N (snd (delete Examples.alice Examples.with_bob_alice)))
  = fst (get 2%N Examples.with_bob_alice)
  /\ fst (get 2%N (snd (update Examples.alice_moved Examples.with_bob_alice)))
     = fst (get 2%N Examples.with_bob_alice).
Proof.
  assert (Hj : 2%N <> user_id Examples.alice) by discriminate.
  assert (Hj' : 2%N <> user_id Examples.alice_moved) by discriminate.
  destruct (writes_leave_other_ids Examples.with_bob_alice Examples.alice 2%N
              eq_refl Hj) as [H1 _].
  destruct (writes_leave_other_ids Examples.with_bob_alice Examples.alice_moved 2%N
              eq_refl Hj') as [_ H2].
  split; [exact H1|exact (proj2 (H2 (app_user_valid _)))].
Defined.

(** X10. [create] is not to be repeated: once [create u] has stored a
    valid user with a new id and email, a second [create u] raises the
    duplicate-key error of the [id] or of the [email] index and stores
    nothing. *)
Theorem create_twice_fails {UD : Type} `{UserModel UD}
  (self : MongoDBUserDatabase) (u : UD) (e : string) :
  wf_store self = true -> valid_user u -> doc_email (dict u) = Some e ->
  has_id (user_id u) (docs (collection self)) = false ->
  has_email e (docs (collection self)) = false ->
  exists key,
    (key = "id" \/ key = "email")
    /\ fst (create u (snd (create u self))) = Raise (DuplicateKeyError key)
    /\ docs (collection (snd (create u (snd (create u self)))))
       = docs (collection (snd (create u self))).
Proof.
  intros Hw Hv He Hi Hm.
  assert (Hw1 := wf_store_create self u Hw Hv).
  rewrite (create_fresh self u e Hw Hv He Hi Hm) in *. cbn [snd] in *.
  destruct (create_taken (created u self) u e Hw1 Hv He) as (key & Hk & Hc).
  - rewrite created_docs. unfold has_id at 1. rewrite existsb_app. cbn [existsb].
    destruct Hv as (_ & Hv2 & _).
    change (doc_id (("_id", VObjectId (next_oid (collection self))) :: dict u))
      with (doc_id (dict u)).
    now rewrite Hv2, N.eqb_refl, !orb_true_r.
  - exists key. rewrite Hc. cbn [fst snd]. repeat split; [exact Hk|].
    unfold refused, over. cbn [collection docs]. apply ready_docs.
Qed.

Lemma create_twice_fails_witness :
  exists key,
    (key = "id" \/ key = "email")
    /\ fst (create Examples.carol (snd (create Examples.carol Examples.with_bob)))
       = Raise (DuplicateKeyError key)
    /\ docs (collection
               (snd (create Examples.carol (snd (create Examples.carol Examples.with_bob)))))
       = docs (collection (snd (create Examples.carol Examples.with_bob))).
Proof.
  apply (create_twice_fails Examples.with_bob Examples.carol "carol@b.com");
    [reflexivity|apply app_user_valid|reflexivity|reflexivity|reflexivity].
Defined.

(** X11. [update] can be repeated: over a collection of users, when
    [update u] of a valid user has returned, doing it again returns [u] as
    well and leaves the documents as the first left them. *)
Theorem update_twice_is_update_once {UD : Type} `{UserModel UD}
  (self : MongoDBUserDatabase) (u : UD) :
  wf_store self = true -> valid_user u ->
  fst (update u self) = Ok u ->
  fst (update u (snd (update u self))) = Ok u
  /\ docs (collection (snd (update u (snd (update u self)))))
     = docs (collection (snd (update u self))).
Proof.
  intros Hw Hv Hok.
  assert (Hw1 := wf_store_update self u Hw Hv).
  assert (Hd1 := docs_after_update self u Hw).
  assert (Hi1 : initialized (snd (update u self)) = true).
  { rewrite update_run by (apply initialize_runs; now right).
    rewrite snd_after. apply ready_initialized. }
  rewrite update_run, fst_after in Hok by (apply initialize_runs; now right).
  set (s1 := snd (update u self)) in *.
  assert (Hr : _initialize s1 = (Ok tt, ready s1))
    by (apply initialize_runs; now left).
  rewrite (update_run u s1 Hr), fst_after, snd_after, (ready_of_initialized _ Hi1).
  cbn [over collection].
  assert (Hwc1 : wf_collection (collection s1) = true)
    by now apply andb_true_iff in Hw1.
  destruct Hv as (Hv1 & Hv2 & _).
  destruct (replace_one_cases [("id", VUuid (user_id u))] (dict u)
              (collection (ready self)) Hv1)
    as [[Hsame [Hnone|[e He]]]|(b & old & a & Hsp & _ & Hnew)].
  - rewrite Hsame in Hd1. rewrite <- Hd1 in Hnone.
    rewrite (replace_one_no_match _ _ _ Hnone). now split.
  - rewrite He in Hok. discriminate.
  - rewrite Hnew in Hd1. destruct (split_first_before _ _ _ _ _ Hsp) as [Hb _].
    destruct (replace_one_same (collection s1)
                [("id", VUuid (user_id u))] (dict u) b a (index_key ix__id old))
      as [Hr1 Hr2]; auto.
    + rewrite (matches_id _ (user_id u) (user_id u)); [apply N.eqb_refl|exact Hv2].
    + rewrite Hr1, Hr2. now split.
Qed.

Lemma update_twice_is_update_once_witness :
  fst (update Examples.alice_moved
         (snd (update Examples.alice_moved Examples.with_alice)))
  = Ok Examples.alice_moved
  /\ docs (collection
             (snd (update Examples.alice_moved
                     (snd (update Examples.alice_moved Examples.with_alice)))))
     = docs (collection (snd (update Examples.alice_moved Examples.with_alice))).
Proof.
  apply (update_twice_is_update_once Examples.with_alice Examples.alice_moved);
    [reflexivity|apply app_user_valid|reflexivity].
Defined.

Lemma delete_one_at (q : query) (c : Collection) (b a : list document)
  (m : document) :
  docs c = b ++ m :: a ->
  existsb (matches String.eqb q) b = false -> matches String.eqb q m = true ->
  delete_one q c
  = (Ok 1, mkCollection (b ++ a) (indexes c) (next_oid c) (calls c ++ [DeleteOne q])).
Proof.
  intros Hds Hb Hm. unfold delete_one. cbn [log docs indexes next_oid calls].
  now rewrite Hds, (split_first_skip _ _ _ _ Hb Hm).
Qed.

(** X12. [delete] can be repeated: over a collection of users, a second
    [delete u] returns normally and leaves the documents as the first left
    them. *)
Theorem delete_twice_is_delete_once {UD : Type} `{UserModel UD}
  (self : MongoDBUserDatabase) (u : UD) :
  wf_store self = true ->
  fst (delete u (snd (delete u self))) = Ok tt
  /\ docs (collection (snd (delete u (snd (delete u self)))))
     = docs (collection (snd (delete u self))).
Proof.
  intros Hw.
  assert (Hd1 := docs_after_delete self u Hw).
  assert (Hi1 : initialized (snd (delete u self)) = true).
  { rewrite delete_run by (apply initialize_runs; now right).
    rewrite snd_after. apply ready_initialized. }
  destruct (ready_wf _ Hw) as (_ & Hwc & _).
  destruct (delete_one_id _ (user_id u) Hwc) as (n & c' & Hdel & Hgone & _).
  rewrite Hdel in Hd1. cbn [snd] in Hd1. rewrite <- Hd1 in Hgone.
  set (s1 := snd (delete u self)) in *.
  assert (Hr : _initialize s1 = (Ok tt, ready s1))
    by (apply initialize_runs; now left).
  rewrite (delete_run u s1 Hr), fst_after, snd_after, (ready_of_initialized _ Hi1).
  now rewrite (delete_one_absent _ _ Hgone).
Qed.

Lemma delete_twice_is_delete_once_witness :
  fst (delete Examples.alice (snd (delete Examples.alice Examples.with_bob_alice)))
  = Ok tt
  /\ docs (collection
             (snd (delete Examples.alice
                     (snd (delete Examples.alice Examples.with_bob_alice)))))
     = docs (collection (snd (delete Examples.alice Examples.with_bob_alice))).
Proof.
  apply (delete_twice_is_delete_once Examples.with_bob_alice Examples.alice eq_refl).
Defined.

(** X13. [delete] undoes [create]: for a valid user with a new id and
    email over a collection of users, [create u] followed by [delete u]
    returns normally and leaves exactly the documents there were before. *)
Theorem create_then_delete_restores {UD : Type} `{UserModel UD}
  (self : MongoDBUserDatabase) (u : UD) (e : string) :
  wf_store self = true -> valid_user u -> doc_email (dict u) = Some e ->
  has_id (user_id u) (docs (collection self)) = false ->
  has_email e (docs (collection self)) = false ->
  fst (delete u (snd (create u self))) = Ok tt
  /\ docs (collection (snd (delete u (snd (create u self)))))
     = docs (collection self).
Proof.
  intros Hw Hv He Hi Hm.
  rewrite (create_fresh self u e Hw Hv He Hi Hm). cbn [snd].
  assert (Hi1 := created_initialized u self Hw).
  assert (Hr : _initialize (created u self) = (Ok tt, ready (created u self)))
    by (apply initialize_runs; now left).
  rewrite (delete_run u _ Hr), fst_after, snd_after, (ready_of_initialized _ Hi1).
  apply andb_true_iff in Hw as [Hc _].
  destruct (wf_collection_inv _ Hc) as (Hs & _).
  destruct Hv as (_ & Hv2 & _).
  rewrite (delete_one_at _ _ (docs (collection self))
             [] (("_id", VObjectId (next_oid (collection self))) :: dict u)).
  - cbn [fst snd over collection docs]. now rewrite app_nil_r.
  - apply created_docs.
  - now rewrite (has_id_matches _ _ _ Hs).
  - rewrite (matches_id _ (user_id u) (user_id u)); [apply N.eqb_refl|exact Hv2].
Qed.

Lemma create_then_delete_restores_witness :
  fst (delete Examples.alice (snd (create Examples.alice Examples.with_bob))) = Ok tt
  /\ docs (collection (snd (delete Examples.alice
                              (snd (create Examples.alice Examples.with_bob)))))
     = docs (collection Examples.with_bob).
Proof.
  apply (create_then_delete_restores Examples.with_bob Examples.alice "A@B.com");
    [reflexivity|apply app_user_valid|reflexivity|reflexivity|reflexivity].
Defined.

(** X14. A failed initialization is not undone: when the creation of the
    [id] index returns and lazy initialization raises all the same, the
    [id] index stays in the collection, both creations have been issued,
    and the store is not initialized. *)
Theorem failed_initialization_keeps_id_index
  (self : MongoDBUserDatabase) (name : string) (e : error) :
  initialized self = false ->
  fst (create_index "id" true None (collection self)) = Ok name ->
  fst (_initialize self) = Raise e ->
  existsb (index_eqb ix_id) (indexes (collection (snd (_initialize self)))) = true
  /\ initialized (snd (_initialize self)) = false
  /\ calls (collection (snd (_initialize self)))
     = calls (collection self)
       ++ [CreateIndex "id" true None; CreateIndex "email" true None].
Proof.
  intros Hi Hid.
  assert (Hu : _initialize self
               = (await (create_index "id" true None) ;;
                  await (create_index "email" true None) ;;
                  set_initialized true) self).
  { unfold _initialize. unfold bind at 1. unfold read. now rewrite Hi. }
  rewrite Hu. unfold bind, await, set_initialized.
  destruct (create_index_result "id" true None (collection self)) as (_ & _ & Ho1).
  assert (Hc1 := create_index_calls "id" true None (collection self)).
  destruct (create_index "id" true None (collection self)) as [[n1|e1] c1];
    cbn [fst snd] in *; [|discriminate].
  cbn [collection initialized email_collation].
  destruct (create_index_result "email" true None c1) as (_ & Hk2 & _).
  assert (Hc2 := create_index_calls "email" true None c1).
  destruct (create_index "email" true None c1) as [[n2|e2] c2];
    cbn [fst snd collection initialized] in *; [discriminate|].
  intros _. split; [exact (Hk2 ix_id (Ho1 _ eq_refl))|]. split; [exact Hi|].
  now rewrite Hc2, Hc1, <- app_assoc.
Qed.

Lemma failed_initialization_keeps_id_index_witness :
  existsb (index_eqb ix_id)
    (indexes (collection (snd (_initialize (__init__ Examples.twice_bob None)))))
  = true
  /\ initialized (snd (_initialize (__init__ Examples.twice_bob None))) = false.
Proof.
  destruct (failed_initialization_keeps_id_index
              (__init__ Examples.twice_bob None) "id_1" (DuplicateKeyError "email")
              eq_refl eq_refl eq_refl) as (H1 & H2 & _).
  split; [exact H1|exact H2].
Defined.

(** X15. An operation does nothing of its own when lazy initialization
    raises: it raises the same error and leaves the store as the failed
    initialization left it, without a lookup or a write. *)
Theorem initialization_failure_stops_operation {UD : Type} `{UserModel UD}
  (self : MongoDBUserDatabase) (o : operation) (e : error) :
  fst (_initialize self) = Raise e ->
  fst (perform o self) = Raise e
  /\ snd (perform o self) = snd (_initialize self).
Proof.
  intros Hi.
  destruct o; unfold perform, get, get_by_email, get_by_oauth_account,
    create, update, delete, bind;
    destruct (_initialize self) as [[[]|e'] s1]; cbn [fst snd] in *;
    try discriminate; inversion Hi; now split.
Qed.

Lemma initialization_failure_stops_operation_witness :
  fst (perform (OpCreate Examples.carol) (__init__ Examples.twice_bob None))
  = Raise (DuplicateKeyError "email")
  /\ docs (collection
             (snd (perform (OpCreate Examples.carol)
                     (__init__ Examples.twice_bob None))))
     = docs Examples.twice_bob.
Proof.
  destruct (initialization_failure_stops_operation
              (__init__ Examples.twice_bob None) (OpCreate Examples.carol)
              (DuplicateKeyError "email") eq_refl) as [H1 H2].
  split; [exact H1|]. rewrite H2. reflexivity.
Defined.

Lemma selected_id (next : N) (ds b a : list document) (old : document) (i : uuid) :
  forallb (user_shaped next) ds = true ->
  split_first (matches String.eqb [("id", VUuid i)]) ds = Some (b, old, a) ->
  doc_id old = Some i.
Proof.
  intros Hs Hsp. destruct (split_first_before _ _ _ _ _ Hsp) as [_ Hm].
  apply split_first_inv in Hsp. rewrite Hsp, forallb_app in Hs.
  apply andb_true_iff in Hs as [_ Hs]. simpl in Hs.
  apply andb_true_iff in Hs as [Hold _].
  destruct (user_shaped_inv _ _ Hold) as (_ & i' & _ & _ & _ & Hi' & _).
  rewrite (matches_id old i i' Hi') in Hm. apply N.eqb_eq in Hm. now subst i'.
Qed.

(** X16. [update] cannot give a user another id nor bring in a new one:
    over a collection of users, the ids stored after [update u] of a valid
    user are the ids stored before, whether it returns or raises. *)
Theorem update_keeps_ids {UD : Type} `{UserModel UD}
  (self : MongoDBUserDatabase) (u : UD) (j : uuid) :
  wf_store self = true -> valid_user u ->
  has_id j (docs (collection (snd (update u self))))
  = has_id j (docs (collection self)).
Proof.
  intros Hw (Hv1 & Hv2 & _). assert (Hs := ready_shaped self Hw).
  rewrite (docs_after_update _ _ Hw), <- (ready_docs self).
  destruct (replace_one_cases [("id", VUuid (user_id u))] (dict u)
              (collection (ready self)) Hv1)
    as [[-> _]|(b & old & a & Hsp & _ & ->)]; [reflexivity|].
  assert (Hold := selected_id _ _ _ _ _ _ Hs Hsp).
  rewrite (split_first_inv _ _ _ _ _ Hsp).
  unfold has_id. rewrite !existsb_app. cbn [existsb].
  change (doc_id (("_id", index_key ix__id old) :: dict u)) with (doc_id (dict u)).
  now rewrite Hv2, Hold.
Qed.

Lemma update_keeps_ids_witness :
  has_id 1%N (docs (collection (snd (update Examples.alice_moved Examples.with_bob_alice))))
  = has_id 1%N (docs (collection Examples.with_bob_alice))
  /\ has_id 3%N (docs (collection (snd (update Examples.carol Examples.with_bob_alice))))
     = has_id 3%N (docs (collection Examples.with_bob_alice)).
Proof.
  split.
  - apply (update_keeps_ids Examples.with_bob_alice Examples.alice_moved 1%N eq_refl).
    apply app_user_valid.
  - apply (update_keeps_ids Examples.with_bob_alice Examples.carol 3%N eq_refl).
    apply app_user_valid.
Defined.
